(** * Painel de Controle de Acesso: occupancy counter, debounce and hand-off

    A shallow embedding of [PaineldeControle.c]: the interrupt handler
    [gpio_irq_handler], the three FreeRTOS tasks [vTaskEntrada], [vTaskSaida]
    and [vTaskReset], the two feedback helpers and the start-up code of
    [main].  Global variables become the fields of one record, the code runs
    in a state monad that also logs every call made to the hardware drivers,
    and there are two schedulers over that state: one that runs each round of
    a task to completion, and a preemptive one that lets the tasks
    interleave at every access to shared state. *)

From Stdlib Require Import ZArith List String Bool Lia DecimalString.
From Equations Require Import Equations.
From Equations.Prop Require Import Logic.
Import ListNotations.
Local Open Scope string_scope.
Local Open Scope list_scope.
Local Open Scope Z_scope.

(** ** Machine integers *)

(** [(uint8_t) x]: the conversion keeps the low eight bits. *)
Definition uint8 (x : Z) : Z := x mod 2 ^ 8.

(** [a - b] on [uint32_t]: the difference wraps around modulo 2^32. *)
Definition sub32 (a b : Z) : Z := (a - b) mod 2 ^ 32.

Definition is_uint32 (x : Z) : Prop := 0 <= x < 2 ^ 32.

Arguments uint8 : simpl never.
Arguments sub32 : simpl never.

(** ** Constants of the program *)

Definition BOTAO_ENTRADA : Z := 5.
Definition BOTAO_SAIDA : Z := 6.
Definition BOTAO_RESET : Z := 22.

(** [BUZZER_GPIO] is [buzzer] of [lib/buzzer.h]; the header is not among the
    sources, the pin number is the one the comment at the macro gives. *)
Definition BUZZER_GPIO : Z := 21.

Definition LED_R_GPIO : Z := 13.
Definition LED_G_GPIO : Z := 11.
Definition LED_B_GPIO : Z := 12.

Definition MAX_USUARIOS : Z := 9.
Definition DEBOUNCE_DELAY_MS : Z := 200.

(** The result codes of FreeRTOS ([projdefs.h], not among the sources). *)
Definition pdTRUE : Z := 1.
Definition pdFALSE : Z := 0.
Definition pdPASS : Z := pdTRUE.
Definition pdFAIL : Z := pdFALSE.

(** ** FreeRTOS semaphores *)

Module Semphr.

(** Modelled from the spec: the FreeRTOS semaphore primitives of
    [semphr.h] ([xSemaphoreCreateCounting], [xSemaphoreCreateBinary],
    [xSemaphoreCreateMutex], [xSemaphoreGive], [xSemaphoreGiveFromISR],
    [xSemaphoreTake], [uxSemaphoreGetCount]), which the program calls and
    whose code is not among the sources.  A semaphore is a bounded counter:
    [uxMessagesWaiting] tokens out of at most [uxLength].  Giving adds a
    token if there is room and fails without a change otherwise
    (section 4.3: "succeeds (count += 1) iff count < MAX_OCCUPANTS;
    otherwise fails without mutation"; section 3: "excess raised signals
    while one is already pending are coalesced, not queued").  Taking
    removes a token if there is one and fails without a change otherwise
    ("succeeds (count -= 1) iff count > 0; otherwise fails without
    mutation"). *)
Record Semaphore : Type := mkSemaphore {
  uxMessagesWaiting : Z;
  uxLength : Z
}.

(** Modelled from the spec: [xSemaphoreCreateCounting], a counter bounded by
    [uxMaxCount] that starts at [uxInitialCount] ("bounded counting primitive
    (0..=MAX)"). *)
Definition xSemaphoreCreateCounting (uxMaxCount uxInitialCount : Z) : Semaphore :=
  mkSemaphore uxInitialCount uxMaxCount.

(** Modelled from the spec: [xSemaphoreCreateBinary], "a single-slot
    pending-signal flag"; it is created empty. *)
Definition xSemaphoreCreateBinary : Semaphore := mkSemaphore 0 1.

(** Modelled from the spec: [xSemaphoreCreateMutex], the "mutual-exclusion
    primitive" of the display; it is created available. *)
Definition xSemaphoreCreateMutex : Semaphore := mkSemaphore 1 1.

(** Modelled from the spec: [uxSemaphoreGetCount], the "non-blocking read of
    current value". *)
Definition uxSemaphoreGetCount (s : Semaphore) : Z := uxMessagesWaiting s.

(** Modelled from the spec: [xSemaphoreGive], "succeeds (count += 1) iff
    count < MAX_OCCUPANTS; otherwise fails without mutation". *)
Definition xSemaphoreGive (s : Semaphore) : Z * Semaphore :=
  if uxMessagesWaiting s <? uxLength s
  then (pdPASS, mkSemaphore (uxMessagesWaiting s + 1) (uxLength s))
  else (pdFAIL, s).

(** Modelled from the spec: [xSemaphoreGiveFromISR], the raise of a channel
    from the handler; it changes the counter the way [xSemaphoreGive] does,
    so that on a binary semaphore "the second raise is a no-op". *)
Definition xSemaphoreGiveFromISR (s : Semaphore) : Z * Semaphore :=
  xSemaphoreGive s.

(** Modelled from the spec: [xSemaphoreTake], "succeeds (count -= 1) iff
    count > 0; otherwise fails without mutation".  A take that finds a token
    returns [pdTRUE] at once, whatever the block time.  With no token, a take with block time 0 returns [pdFALSE]; a
    take with [portMAX_DELAY] leaves its task blocked, which a run of the
    task shows as the same untaken branch: nothing of the guarded body
    happens. *)
Definition xSemaphoreTake (s : Semaphore) : Z * Semaphore :=
  if 0 <? uxMessagesWaiting s
  then (pdTRUE, mkSemaphore (uxMessagesWaiting s - 1) (uxLength s))
  else (pdFALSE, s).

(** The bound every such counter keeps. *)
Definition well_formed (s : Semaphore) : Prop :=
  0 <= uxMessagesWaiting s <= uxLength s.

End Semphr.
Import Semphr.

(** ** Global state *)

Inductive Handle : Type :=
| hDisplayMutex | hUsuariosSem | hResetSem | hEntradaSem | hSaidaSem.

Record System : Type := mkSystem {
  xDisplayMutex : Semaphore;
  xUsuariosSem : Semaphore;
  xResetSem : Semaphore;
  xEntradaSem : Semaphore;
  xSaidaSem : Semaphore;
  g_num_usuarios_ativos : Z;
  last_debounce_time_entrada : Z;
  last_debounce_time_saida : Z;
  last_debounce_time_reset : Z
}.

Definition sem (h : Handle) (st : System) : Semaphore :=
  match h with
  | hDisplayMutex => xDisplayMutex st
  | hUsuariosSem => xUsuariosSem st
  | hResetSem => xResetSem st
  | hEntradaSem => xEntradaSem st
  | hSaidaSem => xSaidaSem st
  end.

Definition set_sem (h : Handle) (s : Semaphore) (st : System) : System :=
  match h with
  | hDisplayMutex =>
      mkSystem s (xUsuariosSem st) (xResetSem st) (xEntradaSem st) (xSaidaSem st)
        (g_num_usuarios_ativos st) (last_debounce_time_entrada st)
        (last_debounce_time_saida st) (last_debounce_time_reset st)
  | hUsuariosSem =>
      mkSystem (xDisplayMutex st) s (xResetSem st) (xEntradaSem st) (xSaidaSem st)
        (g_num_usuarios_ativos st) (last_debounce_time_entrada st)
        (last_debounce_time_saida st) (last_debounce_time_reset st)
  | hResetSem =>
      mkSystem (xDisplayMutex st) (xUsuariosSem st) s (xEntradaSem st) (xSaidaSem st)
        (g_num_usuarios_ativos st) (last_debounce_time_entrada st)
        (last_debounce_time_saida st) (last_debounce_time_reset st)
  | hEntradaSem =>
      mkSystem (xDisplayMutex st) (xUsuariosSem st) (xResetSem st) s (xSaidaSem st)
        (g_num_usuarios_ativos st) (last_debounce_time_entrada st)
        (last_debounce_time_saida st) (last_debounce_time_reset st)
  | hSaidaSem =>
      mkSystem (xDisplayMutex st) (xUsuariosSem st) (xResetSem st) (xEntradaSem st) s
        (g_num_usuarios_ativos st) (last_debounce_time_entrada st)
        (last_debounce_time_saida st) (last_debounce_time_reset st)
  end.

Definition set_g_num_usuarios_ativos (v : Z) (st : System) : System :=
  mkSystem (xDisplayMutex st) (xUsuariosSem st) (xResetSem st) (xEntradaSem st)
    (xSaidaSem st) v (last_debounce_time_entrada st)
    (last_debounce_time_saida st) (last_debounce_time_reset st).

Definition set_last_debounce_time_entrada (v : Z) (st : System) : System :=
  mkSystem (xDisplayMutex st) (xUsuariosSem st) (xResetSem st) (xEntradaSem st)
    (xSaidaSem st) (g_num_usuarios_ativos st) v
    (last_debounce_time_saida st) (last_debounce_time_reset st).

Definition set_last_debounce_time_saida (v : Z) (st : System) : System :=
  mkSystem (xDisplayMutex st) (xUsuariosSem st) (xResetSem st) (xEntradaSem st)
    (xSaidaSem st) (g_num_usuarios_ativos st) (last_debounce_time_entrada st)
    v (last_debounce_time_reset st).

Definition set_last_debounce_time_reset (v : Z) (st : System) : System :=
  mkSystem (xDisplayMutex st) (xUsuariosSem st) (xResetSem st) (xEntradaSem st)
    (xSaidaSem st) (g_num_usuarios_ativos st) (last_debounce_time_entrada st)
    (last_debounce_time_saida st) v.

(** ** Calls to the drivers and the kernel *)

(** What a run leaves behind besides the new state: the calls it made to the
    PWM, buzzer and display drivers, its waits, and the signals the interrupt
    handler raised, in program order. *)
Inductive Call : Type :=
| PwmSetGpioLevel (gpio level : Z)
| BuzzerSetFreq (gpio hz : Z)
| BuzzerStop (gpio : Z)
| SleepMs (ms : Z)
| Ssd1306Fill (value : bool)
| Ssd1306DrawString (text : string) (x y : Z)
| Ssd1306SendData
| GiveFromISR (h : Handle)
| TaskDelayMs (ms : Z).

(** ** The monad the code runs in *)

Definition M (A : Type) : Type := System -> A * System * list Call.

Definition ret {A : Type} (a : A) : M A := fun st => (a, st, []).

Definition bind {A B : Type} (m : M A) (k : A -> M B) : M B :=
  fun st =>
    let '(a, st1, t1) := m st in
    let '(b, st2, t2) := k a st1 in
    (b, st2, t1 ++ t2).

Declare Scope m_scope.
Delimit Scope m_scope with M.
Notation "x <- m ;; k" := (bind m (fun x => k))
  (at level 61, m at next level, right associativity) : m_scope.
Notation "m ;; k" := (bind m (fun _ => k))
  (at level 61, right associativity) : m_scope.
Local Open Scope m_scope.

Definition read {A : Type} (f : System -> A) : M A := fun st => (f st, st, []).
Definition write (f : System -> System) : M unit := fun st => (tt, f st, []).
Definition call (c : Call) : M unit := fun st => (tt, st, [c]).

Definition exec {A : Type} (m : M A) (st : System) : System := snd (fst (m st)).
Definition trace {A : Type} (m : M A) (st : System) : list Call := snd (m st).
Definition value {A : Type} (m : M A) (st : System) : A := fst (fst (m st)).

(** The semaphore calls, on a handle of the state. *)
Definition semGive (h : Handle) : M Z :=
  fun st => let '(r, s) := xSemaphoreGive (sem h st) in (r, set_sem h s st, []).

Definition semGiveFromISR (h : Handle) : M Z :=
  fun st =>
    let '(r, s) := xSemaphoreGiveFromISR (sem h st) in
    (r, set_sem h s st, [GiveFromISR h]).

Definition semTake (h : Handle) : M Z :=
  fun st => let '(r, s) := xSemaphoreTake (sem h st) in (r, set_sem h s st, []).

Definition semGetCount (h : Handle) : M Z :=
  read (fun st => uxSemaphoreGetCount (sem h st)).

(** ** Feedback helpers *)

Definition set_rgb_color (r g b : Z) : M unit :=
  call (PwmSetGpioLevel LED_R_GPIO r) ;;
  call (PwmSetGpioLevel LED_G_GPIO g) ;;
  call (PwmSetGpioLevel LED_B_GPIO b).

(** [%d] of [snprintf]. *)
Definition fmt_d (n : Z) : string := NilZero.string_of_int (Z.to_int n).
Arguments fmt_d : simpl never.

(** The text [snprintf(buffer, sizeof(buffer), "Users: %d/%d", ...)] leaves
    in [buffer]; it is far shorter than the 32 bytes of the buffer for the
    two one-byte operands. *)
Definition users_line (n max : Z) : string :=
  ("Users: " ++ fmt_d n ++ "/" ++ fmt_d max)%string.
Arguments users_line : simpl never.

Definition atualizar_feedback_display : M unit :=
  taken <- semTake hDisplayMutex ;;
  if taken =? pdTRUE then
    call (Ssd1306Fill false) ;;
    n <- read g_num_usuarios_ativos ;;
    call (Ssd1306DrawString (users_line n MAX_USUARIOS) 0 0) ;;
    n <- read g_num_usuarios_ativos ;;
    (if n =? 0 then call (Ssd1306DrawString "STATUS: VACANT" 0 20)
     else if n <? MAX_USUARIOS then call (Ssd1306DrawString "STATUS: OK" 0 20)
     else call (Ssd1306DrawString "STATUS: FULL!!!" 0 20)) ;;
    call Ssd1306SendData ;;
    _ <- semGive hDisplayMutex ;;
    ret tt
  else ret tt.

Definition atualizar_feedback_led_rgb : M unit :=
  n <- read g_num_usuarios_ativos ;;
  if n =? 0 then set_rgb_color 0 0 255
  else if (0 <? n) && (n <=? MAX_USUARIOS - 2) then set_rgb_color 0 255 0
  else if n =? MAX_USUARIOS - 1 then set_rgb_color 255 255 0
  else set_rgb_color 255 0 0.

(** ** The interrupt handler *)

(** [gpio_irq_handler(gpio, events)], with the value that
    [to_ms_since_boot(get_absolute_time())] returns as [current_time_ms].
    [events] is not read.  [portYIELD_FROM_ISR] only asks the scheduler to
    switch tasks; which task runs next is the choice of labels below. *)
Definition gpio_irq_handler (gpio current_time_ms : Z) : M unit :=
  last_e <- read last_debounce_time_entrada ;;
  last_s <- read last_debounce_time_saida ;;
  last_r <- read last_debounce_time_reset ;;
  if (gpio =? BOTAO_ENTRADA) && (DEBOUNCE_DELAY_MS <? sub32 current_time_ms last_e) then
    write (set_last_debounce_time_entrada current_time_ms) ;;
    _ <- semGiveFromISR hEntradaSem ;;
    ret tt
  else if (gpio =? BOTAO_SAIDA) && (DEBOUNCE_DELAY_MS <? sub32 current_time_ms last_s) then
    write (set_last_debounce_time_saida current_time_ms) ;;
    _ <- semGiveFromISR hSaidaSem ;;
    ret tt
  else if (gpio =? BOTAO_RESET) && (DEBOUNCE_DELAY_MS <? sub32 current_time_ms last_r) then
    write (set_last_debounce_time_reset current_time_ms) ;;
    _ <- semGiveFromISR hResetSem ;;
    ret tt
  else ret tt.

(** ** The tasks *)

(** Each task is [for (;;) { if (xSemaphoreTake(sem, portMAX_DELAY) == pdTRUE)
    { ... } }].  The definitions below are one round of that loop: the take
    of the task's own channel and, when it delivers, the guarded body.  A
    round on an empty channel stands for the task staying blocked. *)

(** [vTaskEntrada].  The local [prev_num_usuarios_for_beep] is written and
    never read. *)
Definition vTaskEntrada : M unit :=
  woken <- semTake hEntradaSem ;;
  if woken =? pdTRUE then
    _prev_num_usuarios_for_beep <- read g_num_usuarios_ativos ;;
    result <- semGive hUsuariosSem ;;
    count <- semGetCount hUsuariosSem ;;
    write (set_g_num_usuarios_ativos (uint8 count)) ;;
    n <- read g_num_usuarios_ativos ;;
    (if (result =? pdFAIL) && (n =? MAX_USUARIOS) then
       call (BuzzerSetFreq BUZZER_GPIO 500) ;;
       call (SleepMs 100) ;;
       call (BuzzerStop BUZZER_GPIO)
     else ret tt) ;;
    atualizar_feedback_led_rgb ;;
    atualizar_feedback_display
  else ret tt.

(** [vTaskSaida]. *)
Definition vTaskSaida : M unit :=
  woken <- semTake hSaidaSem ;;
  if woken =? pdTRUE then
    _ <- semTake hUsuariosSem ;;
    count <- semGetCount hUsuariosSem ;;
    write (set_g_num_usuarios_ativos (uint8 count)) ;;
    atualizar_feedback_led_rgb ;;
    atualizar_feedback_display
  else ret tt.

(** The loop of [vTaskReset] that empties the counting semaphore:
    [current_count = uxSemaphoreGetCount(xUsuariosSem);
     while (current_count > 0) { xSemaphoreTake(xUsuariosSem, 0);
                                 current_count = uxSemaphoreGetCount(xUsuariosSem); }].
    At every test [current_count] is the count just read from the semaphore,
    so the test is written on that read.  The recursion is on the number of
    tokens left. *)
Equations? drain_usuarios (st : System) : System
  by wf (Z.to_nat (uxSemaphoreGetCount (xUsuariosSem st))) lt :=
  drain_usuarios st with inspect (0 <? uxSemaphoreGetCount (xUsuariosSem st)) := {
    | exist _ true _ => drain_usuarios (exec (semTake hUsuariosSem) st)
    | exist _ false _ => st }.
Proof.
  unfold exec, semTake, xSemaphoreTake, uxSemaphoreGetCount in *; simpl.
  rewrite e; simpl.
  apply Z.ltb_lt in e. lia.
Qed.

(** [vTaskReset]; [vTaskDelay(pdMS_TO_TICKS(500))] is logged in milliseconds. *)
Definition vTaskReset : M unit :=
  woken <- semTake hResetSem ;;
  if woken =? pdTRUE then
    write (set_g_num_usuarios_ativos 0) ;;
    write drain_usuarios ;;
    call (BuzzerSetFreq BUZZER_GPIO 1500) ;;
    call (SleepMs 100) ;;
    call (BuzzerStop BUZZER_GPIO) ;;
    call (SleepMs 50) ;;
    call (BuzzerSetFreq BUZZER_GPIO 1500) ;;
    call (SleepMs 100) ;;
    call (BuzzerStop BUZZER_GPIO) ;;
    atualizar_feedback_led_rgb ;;
    atualizar_feedback_display ;;
    call (TaskDelayMs 500)
  else ret tt.

(** ** Start-up *)

(** The globals as the C initialisers leave them; the handles are not yet
    created. *)
Definition static_init : System :=
  let null := mkSemaphore 0 0 in
  mkSystem null null null null null 0 0 0 0.

(** [init_rgb_leds].  Of its calls the log records the three
    [pwm_set_gpio_level]; the pin function, slice and [pwm_init] set-up calls
    before them are not calls the log has a record for. *)
Definition init_rgb_leds : M unit :=
  call (PwmSetGpioLevel LED_R_GPIO 0) ;;
  call (PwmSetGpioLevel LED_G_GPIO 0) ;;
  call (PwmSetGpioLevel LED_B_GPIO 0).

(** [main] up to [vTaskStartScheduler]: the calls that the log records
    ([init_rgb_leds], [buzzer_stop]), the creation of the semaphores and the
    first refresh.  Pin, interrupt, I2C and display set-up and [buzzer_init]
    are driver calls the log has no record for; [xTaskCreate] makes the three
    tasks, which the scheduler below runs. *)
Definition main : M unit :=
  init_rgb_leds ;;
  call (BuzzerStop BUZZER_GPIO) ;;
  write (set_sem hUsuariosSem (xSemaphoreCreateCounting MAX_USUARIOS 0)) ;;
  write (set_sem hResetSem xSemaphoreCreateBinary) ;;
  write (set_sem hEntradaSem xSemaphoreCreateBinary) ;;
  write (set_sem hSaidaSem xSemaphoreCreateBinary) ;;
  write (set_sem hDisplayMutex xSemaphoreCreateMutex) ;;
  count <- semGetCount hUsuariosSem ;;
  write (set_g_num_usuarios_ativos (uint8 count)) ;;
  atualizar_feedback_led_rgb ;;
  atualizar_feedback_display.

(** ** The scheduler *)

(** The kernel's view: the shared state, the time before which the Reset
    task cannot begin another round of its loop (the end of the tones and of
    the [vTaskDelay] of its last round), and every call made so far. *)
Record Kernel : Type := mkKernel {
  sys : System;
  reset_wake : Z;
  log : list Call
}.

(** The run-to-completion scheduler.  What can happen next: an edge
    interrupt on a pin at a time (milliseconds since boot), or the scheduler
    giving the processor to one of the tasks for one whole round of its loop,
    from the take of its channel to the next take.  The Reset task is given
    the processor at a time, which decides whether its delay is over.  These
    labels cover the schedules in which no task runs inside the round of
    another.  An interrupt inside a round is covered: the handler touches
    only the debounce timestamps and the three channels, which a round
    touches only in its first take, so it has the effect of an interrupt just
    before or just after the round.  A task that runs inside the round of
    another (the Reset task, of priority 4, preempting the Entry or Exit task,
    of priority 3, or the time slice passing between those two) is not
    covered here: the programs and the scheduler of section Preemption
    below cut each round at every access to shared state and let the tasks
    interleave there. *)
Inductive Label : Type :=
| IRQ (gpio now : Z)
| RunEntrada
| RunSaida
| RunReset (now : Z).

(** Time a round spends in [sleep_ms] and [vTaskDelay]; the display and PWM
    calls are taken to cost no time. *)
Fixpoint elapsed_ms (t : list Call) : Z :=
  match t with
  | [] => 0
  | SleepMs ms :: t' => ms + elapsed_ms t'
  | TaskDelayMs ms :: t' => ms + elapsed_ms t'
  | _ :: t' => elapsed_ms t'
  end.

(** One label.  A round of the Reset task asked for before [reset_wake] finds
    the task still busy or asleep and does nothing. *)
Definition step (l : Label) (k : Kernel) : Kernel :=
  match l with
  | IRQ gpio now =>
      let '(_, st, t) := gpio_irq_handler gpio now (sys k) in
      mkKernel st (reset_wake k) (log k ++ t)
  | RunEntrada =>
      let '(_, st, t) := vTaskEntrada (sys k) in
      mkKernel st (reset_wake k) (log k ++ t)
  | RunSaida =>
      let '(_, st, t) := vTaskSaida (sys k) in
      mkKernel st (reset_wake k) (log k ++ t)
  | RunReset now =>
      if now <? reset_wake k then k
      else
        let '(_, st, t) := vTaskReset (sys k) in
        mkKernel st (now + elapsed_ms t) (log k ++ t)
  end.

(** A sequence of labels, first to last. *)
Definition run (ls : list Label) (k : Kernel) : Kernel :=
  fold_left (fun k l => step l k) ls k.

(** The kernel when [main] starts the scheduler. *)
Definition boot : Kernel :=
  let '(_, st, t) := main static_init in mkKernel st 0 t.

(** ** What the spec calls things *)

(** [snapshot()]: the value the feedback helpers read. *)
Definition snapshot : M Z := read g_num_usuarios_ativos.

(** The three signal sources with their pin, channel and debounce timestamp. *)
Inductive Source : Type := Entrada | Saida | Reset.

Definition pin (src : Source) : Z :=
  match src with
  | Entrada => BOTAO_ENTRADA
  | Saida => BOTAO_SAIDA
  | Reset => BOTAO_RESET
  end.

Definition channel (src : Source) : Handle :=
  match src with
  | Entrada => hEntradaSem
  | Saida => hSaidaSem
  | Reset => hResetSem
  end.

Definition last_debounce_time (src : Source) (st : System) : Z :=
  match src with
  | Entrada => last_debounce_time_entrada st
  | Saida => last_debounce_time_saida st
  | Reset => last_debounce_time_reset st
  end.

Definition set_last_debounce_time (src : Source) (v : Z) (st : System) : System :=
  match src with
  | Entrada => set_last_debounce_time_entrada v st
  | Saida => set_last_debounce_time_saida v st
  | Reset => set_last_debounce_time_reset v st
  end.

(** The status labels and colour tiers of the feedback interface, and how the
    program renders them: the text drawn on the second line of the display
    and the PWM levels of the red, green and blue pins. *)
Inductive Status : Type := VACANT | OK | FULL.
Inductive Color : Type := BLUE | GREEN | AMBER | RED.

Definition status_text (s : Status) : string :=
  match s with
  | VACANT => "STATUS: VACANT"
  | OK => "STATUS: OK"
  | FULL => "STATUS: FULL!!!"
  end.

Definition color_levels (c : Color) : Z * Z * Z :=
  match c with
  | BLUE => (0, 0, 255)
  | GREEN => (0, 255, 0)
  | AMBER => (255, 255, 0)
  | RED => (255, 0, 0)
  end.

(** The label and the tier as section 4.5 of the spec words them. *)
Definition spec_status (n : Z) : Status :=
  if n =? 0 then VACANT else if n <? MAX_USUARIOS then OK else FULL.

Definition spec_color (n : Z) : Color :=
  if n =? 0 then BLUE
  else if n <=? MAX_USUARIOS - 2 then GREEN
  else if n =? MAX_USUARIOS - 1 then AMBER
  else RED.

(** The calls of one refresh that shows label [s] and tier [c] for count [n]. *)
Definition led_calls (c : Color) : list Call :=
  let '(r, g, b) := color_levels c in
  [PwmSetGpioLevel LED_R_GPIO r; PwmSetGpioLevel LED_G_GPIO g;
   PwmSetGpioLevel LED_B_GPIO b].

Definition display_calls (n : Z) (s : Status) : list Call :=
  [Ssd1306Fill false;
   Ssd1306DrawString (users_line n MAX_USUARIOS) 0 0;
   Ssd1306DrawString (status_text s) 0 20;
   Ssd1306SendData].

Definition feedback_calls (n : Z) : list Call :=
  led_calls (spec_color n) ++ display_calls n (spec_status n).

(** The two tone sequences. *)
Definition rejection_tone : list Call :=
  [BuzzerSetFreq BUZZER_GPIO 500; SleepMs 100; BuzzerStop BUZZER_GPIO].

Definition confirmation_tone : list Call :=
  [BuzzerSetFreq BUZZER_GPIO 1500; SleepMs 100; BuzzerStop BUZZER_GPIO;
   SleepMs 50;
   BuzzerSetFreq BUZZER_GPIO 1500; SleepMs 100; BuzzerStop BUZZER_GPIO].

(** Number of tones started in a log. *)
Definition is_tone (c : Call) : bool :=
  match c with BuzzerSetFreq _ _ => true | _ => false end.

Definition tones (t : list Call) : nat := List.length (filter is_tone t).

(** Number of edges of a source that the debounce filter let through: the
    signals the handler raised on the source's channel. *)
Definition Handle_eqb (a b : Handle) : bool :=
  match a, b with
  | hDisplayMutex, hDisplayMutex | hUsuariosSem, hUsuariosSem
  | hResetSem, hResetSem | hEntradaSem, hEntradaSem | hSaidaSem, hSaidaSem => true
  | _, _ => false
  end.

Definition is_raise (h : Handle) (c : Call) : bool :=
  match c with GiveFromISR h' => Handle_eqb h h' | _ => false end.

Definition accepted (src : Source) (t : list Call) : nat :=
  List.length (filter (is_raise (channel src)) t).

(** Number of reset actions in a log: each one ends in its cooldown delay. *)
Definition is_delay (c : Call) : bool :=
  match c with TaskDelayMs _ => true | _ => false end.

Definition reset_actions (t : list Call) : nat := List.length (filter is_delay t).

(** ** Well-formed states *)

Definition pending (h : Handle) (st : System) : Prop :=
  sem h st = mkSemaphore 1 1.

Definition empty (h : Handle) (st : System) : Prop :=
  sem h st = mkSemaphore 0 1.

(** What holds of the state between any two rounds: the counting semaphore is
    within its bound, the global mirrors it, the display mutex is free and
    every channel holds at most its single token. *)
Definition binary (s : Semaphore) : Prop :=
  s = mkSemaphore 1 1 \/ s = mkSemaphore 0 1.

Record consistent (st : System) : Prop := mkConsistent {
  usuarios_length : uxLength (xUsuariosSem st) = MAX_USUARIOS;
  usuarios_bound : 0 <= uxMessagesWaiting (xUsuariosSem st) <= MAX_USUARIOS;
  global_mirrors : g_num_usuarios_ativos st = uxMessagesWaiting (xUsuariosSem st);
  mutex_free : xDisplayMutex st = xSemaphoreCreateMutex;
  reset_binary : binary (xResetSem st);
  entrada_binary : binary (xEntradaSem st);
  saida_binary : binary (xSaidaSem st)
}.

(** A snapshot printed by the display is the first line, ["Users: n/9"]. *)
Definition snapshot_in_range (c : Call) : Prop :=
  match c with
  | Ssd1306DrawString text 0 0 =>
      exists n, 0 <= n <= MAX_USUARIOS /\ text = users_line n MAX_USUARIOS
  | _ => True
  end.

(** ** Vocabulary of the properties *)

(** The state with the counting semaphore and the global both at [n]. *)
Definition with_count (n : Z) (st : System) : System :=
  set_g_num_usuarios_ativos n
    (set_sem hUsuariosSem (mkSemaphore n MAX_USUARIOS) st).

(** The state after an edge that the filter lets through. *)
Definition raise (src : Source) (now : Z) (st : System) : System :=
  set_sem (channel src)
    (snd (xSemaphoreGiveFromISR (sem (channel src) (set_last_debounce_time src now st))))
    (set_last_debounce_time src now st).

(** The kernel-level invariant. *)
Definition kernel_ok (k : Kernel) : Prop :=
  consistent (sys k) /\ Forall snapshot_in_range (log k).

(** Edge times, each of which passes the debounce filter after the one
    before it was accepted. *)
Fixpoint spaced (last : Z) (ts : list Z) : Prop :=
  match ts with
  | [] => True
  | t :: ts' => DEBOUNCE_DELAY_MS < sub32 t last /\ spaced t ts'
  end.

(** An edge on the button followed by the round of the task it wakes. *)
Definition entry_signals (ts : list Z) : list Label :=
  flat_map (fun t => [IRQ BOTAO_ENTRADA t; RunEntrada]) ts.

(** The same for the exit button. *)
Definition exit_signals (ts : list Z) : list Label :=
  flat_map (fun t => [IRQ BOTAO_SAIDA t; RunSaida]) ts.

(** Two edges on one source, one handler call after the other. *)
Definition two_edges (src : Source) (t1 t2 : Z) : M unit :=
  gpio_irq_handler (pin src) t1 ;; gpio_irq_handler (pin src) t2.

(** A burst of edges, each a pin and a time, with no task round between. *)
Definition edges (es : list (Z * Z)) : list Label :=
  map (fun e => IRQ (fst e) (snd e)) es.

(** Scenario A of the spec: three entry signals spaced beyond the debounce
    window. *)
Definition three_inside : Kernel := run (entry_signals [300; 600; 900]) boot.

(** Scenario D: five occupants, and then a reset edge raised and not yet
    served. *)
Definition five_inside : Kernel :=
  run (entry_signals [300; 600; 900; 1200; 1500]) boot.

Definition reset_requested : Kernel := step (IRQ BOTAO_RESET 2000) five_inside.

(** The reset of scenario D served by the Reset task at the time of the
    edge. *)
Definition reset_served : Kernel := step (RunReset 2000) reset_requested.

(** Scenarios B and C: eight and nine occupants with an entry edge raised. *)
Definition entry_requested (n : nat) : Kernel :=
  step (IRQ BOTAO_ENTRADA 9000)
    (run (entry_signals (map (fun i => 300 * Z.of_nat i) (seq 1 n))) boot).

(** ** Vocabulary of the further properties *)

(** The task round that consumes the signals of a source. *)
Definition round (src : Source) (now : Z) : Label :=
  match src with
  | Entrada => RunEntrada
  | Saida => RunSaida
  | Reset => RunReset now
  end.

(** Whether a label is a round of the task that a source wakes. *)
Definition consumes (src : Source) (l : Label) : bool :=
  match src, l with
  | Entrada, RunEntrada | Saida, RunSaida | Reset, RunReset _ => true
  | _, _ => false
  end.

(** A press of a button at a time, served by its task at that time. *)
Definition press (p : Source * Z) : list Label :=
  [IRQ (pin (fst p)) (snd p); round (fst p) (snd p)].

Definition presses (ps : list (Source * Z)) : list Label := flat_map press ps.

(** Presses in time order, each more than 750 ms after the one before (the
    length of a reset round with its cooldown), on a clock that has not
    wrapped. *)
Fixpoint well_spaced (prev : Z) (ps : list (Source * Z)) : Prop :=
  match ps with
  | [] => True
  | p :: ps' => prev + 750 < snd p < 2 ^ 32 /\ well_spaced (snd p) ps'
  end.

(** The bounded counter the three tasks implement together: what one served
    signal of a source does to the count. *)
Definition counter_op (c : Z) (src : Source) : Z :=
  match src with
  | Entrada => Z.min (c + 1) MAX_USUARIOS
  | Saida => Z.max 0 (c - 1)
  | Reset => 0
  end.

(** Calls the interrupt handler may make: raising a channel. *)
Definition is_signal (c : Call) : bool :=
  match c with GiveFromISR _ => true | _ => false end.

(** ** Preemption *)

(** A task body cut into the steps that other tasks can come between: every
    read or write of the volatile global, every semaphore call and every
    driver call is one step; what the task computes on its locals between two
    of them is part of the continuation.  [Wait h k] is
    [xSemaphoreTake(h, portMAX_DELAY)]: the task goes on to [k] once it has
    taken a token, and stays where it is while there is none.  [Stop] is the
    end of a round, back at the top of the task's loop. *)
Inductive Prog : Type :=
| Stop : Prog
| Atom {A : Type} (m : M A) (k : A -> Prog) : Prog
| Wait (h : Handle) (k : Prog) : Prog.

(** [set_rgb_color], then [k]. *)
Definition set_rgb_color_p (r g b : Z) (k : Prog) : Prog :=
  Atom (call (PwmSetGpioLevel LED_R_GPIO r)) (fun _ =>
  Atom (call (PwmSetGpioLevel LED_G_GPIO g)) (fun _ =>
  Atom (call (PwmSetGpioLevel LED_B_GPIO b)) (fun _ => k))).

(** The last two branches of [atualizar_feedback_led_rgb]. *)
Definition led_rgb_last_p (k : Prog) : Prog :=
  Atom (read g_num_usuarios_ativos) (fun n =>
  if n =? MAX_USUARIOS - 1 then set_rgb_color_p 255 255 0 k
  else set_rgb_color_p 255 0 0 k).

(** [atualizar_feedback_led_rgb], then [k].  The global is volatile: each
    comparison of the source reads it again, the second operand of [&&] only
    when the first holds. *)
Definition atualizar_feedback_led_rgb_p (k : Prog) : Prog :=
  Atom (read g_num_usuarios_ativos) (fun n1 =>
  if n1 =? 0 then set_rgb_color_p 0 0 255 k
  else
    Atom (read g_num_usuarios_ativos) (fun n2 =>
    if 0 <? n2 then
      Atom (read g_num_usuarios_ativos) (fun n3 =>
      if n3 <=? MAX_USUARIOS - 2 then set_rgb_color_p 0 255 0 k
      else led_rgb_last_p k)
    else led_rgb_last_p k)).

(** The end of [atualizar_feedback_display]: send and give the mutex back. *)
Definition display_send_p (k : Prog) : Prog :=
  Atom (call Ssd1306SendData) (fun _ =>
  Atom (semGive hDisplayMutex) (fun _ => k)).

(** [atualizar_feedback_display], then [k]. *)
Definition atualizar_feedback_display_p (k : Prog) : Prog :=
  Wait hDisplayMutex
    (Atom (call (Ssd1306Fill false)) (fun _ =>
     Atom (read g_num_usuarios_ativos) (fun n =>
     Atom (call (Ssd1306DrawString (users_line n MAX_USUARIOS) 0 0)) (fun _ =>
     Atom (read g_num_usuarios_ativos) (fun n1 =>
     if n1 =? 0 then
       Atom (call (Ssd1306DrawString "STATUS: VACANT" 0 20)) (fun _ =>
       display_send_p k)
     else
       Atom (read g_num_usuarios_ativos) (fun n2 =>
       if n2 <? MAX_USUARIOS then
         Atom (call (Ssd1306DrawString "STATUS: OK" 0 20)) (fun _ =>
         display_send_p k)
       else
         Atom (call (Ssd1306DrawString "STATUS: FULL!!!" 0 20)) (fun _ =>
         display_send_p k))))))).

(** The two helpers in a row and the end of the round. *)
Definition refresh_p : Prog :=
  atualizar_feedback_led_rgb_p (atualizar_feedback_display_p Stop).

(** [vTaskEntrada] from line 186 on: the decision about the tone, with the
    result of [xSemaphoreGive] in the local [result].  The global is read
    only when the first operand of [&&] holds. *)
Definition entrada_decide_p (result : Z) : Prog :=
  if result =? pdFAIL then
    Atom (read g_num_usuarios_ativos) (fun n =>
    if n =? MAX_USUARIOS then
      Atom (call (BuzzerSetFreq BUZZER_GPIO 500)) (fun _ =>
      Atom (call (SleepMs 100)) (fun _ =>
      Atom (call (BuzzerStop BUZZER_GPIO)) (fun _ => refresh_p)))
    else refresh_p)
  else refresh_p.

(** [vTaskEntrada] from line 183 on: the read-back of the count and its
    store in the global. *)
Definition entrada_read_back_p (result : Z) : Prog :=
  Atom (semGetCount hUsuariosSem) (fun count =>
  Atom (write (set_g_num_usuarios_ativos (uint8 count))) (fun _ =>
  entrada_decide_p result)).

(** One round of [vTaskEntrada]. *)
Definition vTaskEntrada_p : Prog :=
  Wait hEntradaSem
    (Atom (read g_num_usuarios_ativos) (fun _prev_num_usuarios_for_beep =>
     Atom (semGive hUsuariosSem) entrada_read_back_p)).

(** One round of [vTaskSaida]. *)
Definition vTaskSaida_p : Prog :=
  Wait hSaidaSem
    (Atom (semTake hUsuariosSem) (fun _ =>
     Atom (semGetCount hUsuariosSem) (fun count =>
     Atom (write (set_g_num_usuarios_ativos (uint8 count))) (fun _ =>
     refresh_p)))).

(** One round of [vTaskReset].  The loop that empties the counting semaphore
    is one step: the Reset task has the highest priority and does not block
    inside the loop, so no other task runs there, and the handler does not
    touch the counting semaphore. *)
Definition vTaskReset_p : Prog :=
  Wait hResetSem
    (Atom (write (set_g_num_usuarios_ativos 0)) (fun _ =>
     Atom (write drain_usuarios) (fun _ =>
     Atom (call (BuzzerSetFreq BUZZER_GPIO 1500)) (fun _ =>
     Atom (call (SleepMs 100)) (fun _ =>
     Atom (call (BuzzerStop BUZZER_GPIO)) (fun _ =>
     Atom (call (SleepMs 50)) (fun _ =>
     Atom (call (BuzzerSetFreq BUZZER_GPIO 1500)) (fun _ =>
     Atom (call (SleepMs 100)) (fun _ =>
     Atom (call (BuzzerStop BUZZER_GPIO)) (fun _ =>
     atualizar_feedback_led_rgb_p
       (atualizar_feedback_display_p
          (Atom (call (TaskDelayMs 500)) (fun _ => Stop))))))))))))).

Definition task_prog (src : Source) : Prog :=
  match src with
  | Entrada => vTaskEntrada_p
  | Saida => vTaskSaida_p
  | Reset => vTaskReset_p
  end.

(** A program run with no other task and no interrupt in between, up to the
    end of the round ([true]) or to a wait that finds no token ([false]). *)
Fixpoint complete (p : Prog) (st : System) : System * list Call * bool :=
  match p with
  | Stop => (st, [], true)
  | Atom m k =>
      let '(a, st1, t1) := m st in
      let '(st2, t2, b) := complete (k a) st1 in
      (st2, t1 ++ t2, b)
  | Wait h k =>
      let '(r, s) := xSemaphoreTake (sem h st) in
      if r =? pdTRUE then complete k (set_sem h s st) else (st, [], false)
  end.

(** One step of a program: the next program, the state and the calls made. *)
Definition advance (p : Prog) (st : System) : Prog * System * list Call :=
  match p with
  | Stop => (Stop, st, [])
  | Atom m k => let '(a, st1, t1) := m st in (k a, st1, t1)
  | Wait h k =>
      let '(r, s) := xSemaphoreTake (sem h st) in
      if r =? pdTRUE then (k, set_sem h s st, []) else (Wait h k, st, [])
  end.

(** The preemptive scheduler's view: the shared state, where each task is in
    its body, and every call made so far.  [vTaskDelay] is a logged call:
    the time at which a task may go on is left to the order of the labels. *)
Record Fine : Type := mkFine {
  fsys : System;
  at_entrada : Prog;
  at_saida : Prog;
  at_reset : Prog;
  flog : list Call
}.

Definition at_task (src : Source) (k : Fine) : Prog :=
  match src with
  | Entrada => at_entrada k
  | Saida => at_saida k
  | Reset => at_reset k
  end.

(** A task at the end of a round is at the top of its loop. *)
Definition resume (src : Source) (p : Prog) : Prog :=
  match p with
  | Stop => task_prog src
  | _ => p
  end.

(** What can happen next: an edge interrupt, or one step of one task.  Any
    order of labels is allowed, which includes every order the priorities of
    the tasks allow. *)
Inductive FLabel : Type :=
| FIRQ (gpio now : Z)
| FStep (src : Source).

Definition fstep (l : FLabel) (k : Fine) : Fine :=
  match l with
  | FIRQ gpio now =>
      let '(_, st, t) := gpio_irq_handler gpio now (fsys k) in
      mkFine st (at_entrada k) (at_saida k) (at_reset k) (flog k ++ t)
  | FStep src =>
      let '(p, st, t) := advance (resume src (at_task src k)) (fsys k) in
      match src with
      | Entrada => mkFine st p (at_saida k) (at_reset k) (flog k ++ t)
      | Saida => mkFine st (at_entrada k) p (at_reset k) (flog k ++ t)
      | Reset => mkFine st (at_entrada k) (at_saida k) p (flog k ++ t)
      end
  end.

Definition frun (ls : list FLabel) (k : Fine) : Fine :=
  fold_left (fun k l => fstep l k) ls k.

(** The three tasks at the top of their loops when the scheduler starts. *)
Definition fboot : Fine := mkFine (sys boot) Stop Stop Stop (log boot).

(** [n] steps of one task in a row. *)
Definition steps (src : Source) (n : nat) : list FLabel := repeat (FStep src) n.

(** Number of steps an uninterrupted run of a program takes. *)
Fixpoint length_of (p : Prog) (st : System) : nat :=
  match p with
  | Stop => 0
  | Atom m k => let '(a, st1, _) := m st in S (length_of (k a) st1)
  | Wait h k =>
      let '(r, s) := xSemaphoreTake (sem h st) in
      if r =? pdTRUE then S (length_of k (set_sem h s st)) else 0
  end.



(** What holds of the shared state at every step, whatever the interleaving:
    the counting semaphore and the global are within the bound, and the
    mutex and the channels hold at most their single token. *)
Record in_range (st : System) : Prop := mkInRange {
  range_length : uxLength (xUsuariosSem st) = MAX_USUARIOS;
  range_count : 0 <= uxMessagesWaiting (xUsuariosSem st) <= MAX_USUARIOS;
  range_global : 0 <= g_num_usuarios_ativos st <= MAX_USUARIOS;
  range_mutex : binary (xDisplayMutex st);
  range_reset : binary (xResetSem st);
  range_entrada : binary (xEntradaSem st);
  range_saida : binary (xSaidaSem st)
}.

(** A program every step of which, taken in any state in range, leaves the
    state in range and draws only counts in range. *)
Fixpoint safe (p : Prog) : Prop :=
  match p with
  | Stop => True
  | Atom m k =>
      forall st, in_range st ->
        in_range (exec m st) /\
        Forall snapshot_in_range (trace m st) /\
        safe (k (value m st))
  | Wait h k => safe k
  end.

(** Calls put in front of the calls of a result of [complete]. *)
Definition prepend (t : list Call) (r : System * list Call * bool) :
    System * list Call * bool :=
  let '(st, t', b) := r in (st, t ++ t', b).

(** The preemptive scheduler's view with one task moved and the state and log
    replaced. *)
Definition moved (src : Source) (p : Prog) (st : System) (lg : list Call)
    (k : Fine) : Fine :=
  match src with
  | Entrada => mkFine st p (at_saida k) (at_reset k) lg
  | Saida => mkFine st (at_entrada k) p (at_reset k) lg
  | Reset => mkFine st (at_entrada k) (at_saida k) p lg
  end.

(** The preemptive scheduler's view of a state of the run-to-completion
    scheduler: every task at the top of its loop. *)
Definition at_rest (k : Kernel) : Fine := mkFine (sys k) Stop Stop Stop (log k).





(** The round of a source's task under the run-to-completion scheduler. *)
Definition task_round (src : Source) : M unit :=
  match src with
  | Entrada => vTaskEntrada
  | Saida => vTaskSaida
  | Reset => vTaskReset
  end.

(** ** Basic facts *)

Lemma uint8_small (x : Z) : 0 <= x < 256 -> uint8 x = x.
Proof. intros H. unfold uint8. apply Z.mod_small. lia. Qed.

Lemma sub32_small (a b : Z) : 0 <= b <= a -> a < 2 ^ 32 -> sub32 a b = a - b.
Proof. intros H1 H2. unfold sub32. apply Z.mod_small. lia. Qed.

Lemma run_app (l1 l2 : list Label) (k : Kernel) :
  run (l1 ++ l2) k = run l2 (run l1 k).
Proof. unfold run. apply fold_left_app. Qed.

Lemma run_cons (l : Label) (ls : list Label) (k : Kernel) :
  run (l :: ls) k = run ls (step l k).
Proof. reflexivity. Qed.

(** *** Running the monad *)

Lemma run_bind {A B : Type} (m : M A) (k : A -> M B) (st : System) a st1 t1 :
  m st = (a, st1, t1) ->
  bind m k st = (let '(b, st2, t2) := k a st1 in (b, st2, t1 ++ t2)).
Proof. intros E. unfold bind. rewrite E. reflexivity. Qed.

Lemma run_silent {B : Type} (m : M B) (st : System) :
  (let '(b, st2, t2) := m st in (b, st2, [] ++ t2)) = m st.
Proof. destruct (m st) as [[b st2] t2]. reflexivity. Qed.

Lemma run_read {A B : Type} (f : System -> A) (k : A -> M B) (st : System) :
  bind (read f) k st = k (f st) st.
Proof. unfold bind, read. apply run_silent. Qed.

Lemma run_write {B : Type} (f : System -> System) (k : unit -> M B) (st : System) :
  bind (write f) k st = k tt (f st).
Proof. unfold bind, write. apply run_silent. Qed.

Lemma run_ret {A B : Type} (a : A) (k : A -> M B) (st : System) :
  bind (ret a) k st = k a st.
Proof. unfold bind, ret. apply run_silent. Qed.

Lemma run_call {B : Type} (c : Call) (k : unit -> M B) (st : System) :
  bind (call c) k st = (let '(b, st2, t2) := k tt st in (b, st2, c :: t2)).
Proof. reflexivity. Qed.

Lemma run_semTake {B : Type} (h : Handle) (k : Z -> M B) (st : System) :
  bind (semTake h) k st =
    k (fst (xSemaphoreTake (sem h st)))
      (set_sem h (snd (xSemaphoreTake (sem h st))) st).
Proof.
  unfold bind, semTake. destruct (xSemaphoreTake (sem h st)) as [r s].
  apply run_silent.
Qed.

Lemma run_semGive {B : Type} (h : Handle) (k : Z -> M B) (st : System) :
  bind (semGive h) k st =
    k (fst (xSemaphoreGive (sem h st)))
      (set_sem h (snd (xSemaphoreGive (sem h st))) st).
Proof.
  unfold bind, semGive. destruct (xSemaphoreGive (sem h st)) as [r s].
  apply run_silent.
Qed.

Lemma run_semGetCount {B : Type} (h : Handle) (k : Z -> M B) (st : System) :
  bind (semGetCount h) k st = k (uxSemaphoreGetCount (sem h st)) st.
Proof. unfold semGetCount. rewrite run_read. reflexivity. Qed.

Ltac mstep :=
  repeat first
    [ rewrite run_read | rewrite run_write | rewrite run_ret
    | rewrite run_semTake | rewrite run_semGive | rewrite run_semGetCount ].

(** *** The feedback helpers in closed form *)

Lemma spec_color_cases (n : Z) :
  (n = 0 /\ spec_color n = BLUE) \/
  (n <> 0 /\ n <= MAX_USUARIOS - 2 /\ spec_color n = GREEN) \/
  (n = MAX_USUARIOS - 1 /\ spec_color n = AMBER) \/
  (n > MAX_USUARIOS - 2 /\ n <> MAX_USUARIOS - 1 /\ spec_color n = RED).
Proof.
  unfold spec_color, MAX_USUARIOS.
  destruct (n =? 0) eqn:E0; [apply Z.eqb_eq in E0; auto | apply Z.eqb_neq in E0].
  destruct (n <=? 9 - 2) eqn:E1; [apply Z.leb_le in E1; auto | apply Z.leb_gt in E1].
  destruct (n =? 9 - 1) eqn:E2; [apply Z.eqb_eq in E2; auto | apply Z.eqb_neq in E2].
  right; right; right. repeat split; lia.
Qed.

Lemma atualizar_feedback_led_rgb_run (st : System) :
  0 <= g_num_usuarios_ativos st ->
  atualizar_feedback_led_rgb st =
    (tt, st, led_calls (spec_color (g_num_usuarios_ativos st))).
Proof.
  intros Hn. unfold atualizar_feedback_led_rgb, bind, read, spec_color.
  set (n := g_num_usuarios_ativos st) in *.
  destruct (n =? 0) eqn:E0; [reflexivity |].
  apply Z.eqb_neq in E0.
  replace (0 <? n) with true by (symmetry; apply Z.ltb_lt; lia).
  rewrite andb_true_l.
  destruct (n <=? MAX_USUARIOS - 2); [reflexivity |].
  destruct (n =? MAX_USUARIOS - 1); reflexivity.
Qed.

Lemma atualizar_feedback_display_run (st : System) :
  xDisplayMutex st = xSemaphoreCreateMutex ->
  atualizar_feedback_display st =
    (tt, st, display_calls (g_num_usuarios_ativos st)
               (spec_status (g_num_usuarios_ativos st))).
Proof.
  intros Hm. destruct st as [mx us rs es ss g le ls lr]. simpl in *. subst mx.
  unfold atualizar_feedback_display, bind, semTake, semGive, read, call, ret,
    display_calls, spec_status; simpl.
  destruct (g =? 0); [reflexivity |].
  destruct (g <? MAX_USUARIOS); reflexivity.
Qed.

(** Both helpers in a row, as every task calls them. *)
Lemma feedback_run (st : System) :
  0 <= g_num_usuarios_ativos st ->
  xDisplayMutex st = xSemaphoreCreateMutex ->
  (atualizar_feedback_led_rgb ;; atualizar_feedback_display) st =
    (tt, st, feedback_calls (g_num_usuarios_ativos st)).
Proof.
  intros Hn Hm. unfold bind at 1.
  rewrite atualizar_feedback_led_rgb_run by assumption.
  rewrite atualizar_feedback_display_run by assumption.
  reflexivity.
Qed.

Lemma vTaskEntrada_run (st : System) :
  consistent st -> pending hEntradaSem st ->
  vTaskEntrada st =
    (tt,
     with_count (Z.min (g_num_usuarios_ativos st + 1) MAX_USUARIOS)
       (set_sem hEntradaSem (mkSemaphore 0 1) st),
     (if g_num_usuarios_ativos st =? MAX_USUARIOS then rejection_tone else [])
       ++ feedback_calls (Z.min (g_num_usuarios_ativos st + 1) MAX_USUARIOS)).
Proof.
  intros [Hl Hb Hg Hm _ _ _] Hp.
  destruct st as [mx [c len] rs es ss g le ls lr].
  unfold pending in Hp. simpl in *. subst.
  unfold vTaskEntrada. mstep. simpl. mstep. simpl.
  unfold xSemaphoreGive, uxSemaphoreGetCount. simpl.
  unfold MAX_USUARIOS in *.
  destruct (c <? 9) eqn:E; simpl; mstep; simpl.
  - apply Z.ltb_lt in E.
    rewrite uint8_small by lia.
    rewrite feedback_run by (simpl; (lia || reflexivity)). simpl.
    replace (c =? 9) with false by (symmetry; apply Z.eqb_neq; lia).
    replace (Z.min (c + 1) 9) with (c + 1) by lia.
    reflexivity.
  - apply Z.ltb_ge in E. assert (c = 9) by lia. subst c.
    rewrite uint8_small by lia. simpl.
    erewrite run_bind by reflexivity.
    rewrite feedback_run by (simpl; (lia || reflexivity)).
    reflexivity.
Qed.

Lemma vTaskSaida_run (st : System) :
  consistent st -> pending hSaidaSem st ->
  vTaskSaida st =
    (tt,
     with_count (Z.max 0 (g_num_usuarios_ativos st - 1))
       (set_sem hSaidaSem (mkSemaphore 0 1) st),
     feedback_calls (Z.max 0 (g_num_usuarios_ativos st - 1))).
Proof.
  intros [Hl Hb Hg Hm _ _ _] Hp.
  destruct st as [mx [c len] rs es ss g le ls lr].
  unfold pending in Hp. simpl in *. subst.
  unfold vTaskSaida. mstep. simpl. mstep. simpl.
  unfold xSemaphoreTake, uxSemaphoreGetCount. simpl.
  unfold MAX_USUARIOS in *.
  destruct (0 <? c) eqn:E; simpl; mstep; simpl.
  - apply Z.ltb_lt in E.
    rewrite uint8_small by lia.
    rewrite feedback_run by (simpl; (lia || reflexivity)). simpl.
    replace (Z.max 0 (c - 1)) with (c - 1) by lia.
    reflexivity.
  - apply Z.ltb_ge in E. assert (c = 0) by lia. subst c.
    rewrite uint8_small by lia. simpl.
    rewrite feedback_run by (simpl; (lia || reflexivity)).
    reflexivity.
Qed.

(** A round of a task whose channel is empty: the task stays blocked. *)
Lemma vTaskEntrada_blocked (st : System) :
  empty hEntradaSem st -> vTaskEntrada st = (tt, st, []).
Proof.
  destruct st as [mx us rs es ss g le ls lr]. unfold empty. simpl. intros ->.
  reflexivity.
Qed.

Lemma vTaskSaida_blocked (st : System) :
  empty hSaidaSem st -> vTaskSaida st = (tt, st, []).
Proof.
  destruct st as [mx us rs es ss g le ls lr]. unfold empty. simpl. intros ->.
  reflexivity.
Qed.

Lemma vTaskReset_blocked (st : System) :
  empty hResetSem st -> vTaskReset st = (tt, st, []).
Proof.
  destruct st as [mx us rs es ss g le ls lr]. unfold empty. simpl. intros ->.
  reflexivity.
Qed.

(** The loop leaves no token, and nothing else changes. *)
Lemma drain_usuarios_run (st : System) :
  0 <= uxMessagesWaiting (xUsuariosSem st) ->
  drain_usuarios st =
    set_sem hUsuariosSem (mkSemaphore 0 (uxLength (xUsuariosSem st))) st.
Proof.
  funelim (drain_usuarios st); intros Hc.
  - assert (Hpos : 0 < uxMessagesWaiting (xUsuariosSem st))
      by (apply Z.ltb_lt; assumption).
    assert (Hstep : exec (semTake hUsuariosSem) st =
                    set_sem hUsuariosSem
                      (mkSemaphore (uxMessagesWaiting (xUsuariosSem st) - 1)
                         (uxLength (xUsuariosSem st))) st).
    { unfold exec, semTake, xSemaphoreTake. simpl sem.
      replace (0 <? uxMessagesWaiting (xUsuariosSem st)) with true. reflexivity. }
    match goal with IH : _ -> drain_usuarios _ = _ |- _ => rewrite IH end.
    + rewrite Hstep. destruct st as [mx [c len] rs es ss g le ls lr]. reflexivity.
    + rewrite Hstep. destruct st as [mx [c len] rs es ss g le ls lr].
      simpl in *. lia.
  - assert (Hz : uxMessagesWaiting (xUsuariosSem st) = 0).
    { pose proof (proj1 (Z.ltb_ge _ _) e) as Hle.
      unfold uxSemaphoreGetCount in Hle. lia. }
    destruct st as [mx [c len] rs es ss g le ls lr]. simpl in *. subst c.
    reflexivity.
Qed.

Lemma vTaskReset_run (st : System) :
  pending hResetSem st ->
  xDisplayMutex st = xSemaphoreCreateMutex ->
  0 <= uxMessagesWaiting (xUsuariosSem st) ->
  vTaskReset st =
    (tt,
     set_g_num_usuarios_ativos 0
       (set_sem hUsuariosSem (mkSemaphore 0 (uxLength (xUsuariosSem st)))
          (set_sem hResetSem (mkSemaphore 0 1) st)),
     confirmation_tone ++ feedback_calls 0 ++ [TaskDelayMs 500]).
Proof.
  intros Hp Hm Hc.
  destruct st as [mx [c len] rs es ss g le ls lr].
  unfold pending in Hp. simpl in *. subst.
  unfold vTaskReset. mstep. simpl. mstep.
  rewrite drain_usuarios_run by (simpl; lia). simpl.
  rewrite !run_call.
  erewrite run_bind by (apply atualizar_feedback_led_rgb_run; simpl; lia).
  erewrite run_bind by (apply atualizar_feedback_display_run; reflexivity).
  reflexivity.
Qed.

(** *** The interrupt handler in closed form *)

Lemma run_semGiveFromISR {B : Type} (h : Handle) (k : Z -> M B) (st : System) :
  bind (semGiveFromISR h) k st =
    (let '(b, st2, t2) :=
       k (fst (xSemaphoreGiveFromISR (sem h st)))
         (set_sem h (snd (xSemaphoreGiveFromISR (sem h st))) st) in
     (b, st2, GiveFromISR h :: t2)).
Proof.
  unfold bind, semGiveFromISR.
  destruct (xSemaphoreGiveFromISR (sem h st)) as [r s]. reflexivity.
Qed.

Lemma gpio_irq_handler_accept (src : Source) (now : Z) (st : System) :
  DEBOUNCE_DELAY_MS < sub32 now (last_debounce_time src st) ->
  gpio_irq_handler (pin src) now st =
    (tt, raise src now st, [GiveFromISR (channel src)]).
Proof.
  intros H. apply Z.ltb_lt in H.
  unfold gpio_irq_handler. mstep.
  destruct src; simpl in *; rewrite H; simpl;
    mstep; rewrite run_semGiveFromISR; reflexivity.
Qed.

Lemma gpio_irq_handler_reject (src : Source) (now : Z) (st : System) :
  sub32 now (last_debounce_time src st) <= DEBOUNCE_DELAY_MS ->
  gpio_irq_handler (pin src) now st = (tt, st, []).
Proof.
  intros H. apply Z.ltb_ge in H.
  unfold gpio_irq_handler. mstep.
  destruct src; simpl in *; rewrite H; reflexivity.
Qed.

Lemma pin_cases (gpio : Z) :
  (exists src, gpio = pin src) \/
  (gpio =? BOTAO_ENTRADA) = false /\ (gpio =? BOTAO_SAIDA) = false /\
  (gpio =? BOTAO_RESET) = false.
Proof.
  destruct (gpio =? BOTAO_ENTRADA) eqn:E1;
    [left; exists Entrada; apply Z.eqb_eq; assumption |].
  destruct (gpio =? BOTAO_SAIDA) eqn:E2;
    [left; exists Saida; apply Z.eqb_eq; assumption |].
  destruct (gpio =? BOTAO_RESET) eqn:E3;
    [left; exists Reset; apply Z.eqb_eq; assumption |].
  right. auto.
Qed.

Lemma gpio_irq_handler_cases (gpio now : Z) (st : System) :
  gpio_irq_handler gpio now st = (tt, st, []) \/
  exists src,
    gpio = pin src /\
    DEBOUNCE_DELAY_MS < sub32 now (last_debounce_time src st) /\
    gpio_irq_handler gpio now st =
      (tt, raise src now st, [GiveFromISR (channel src)]).
Proof.
  destruct (pin_cases gpio) as [[src ->] | (E1 & E2 & E3)].
  - destruct (Z_lt_le_dec DEBOUNCE_DELAY_MS (sub32 now (last_debounce_time src st)))
      as [Ha | Hr].
    + right. exists src. auto using gpio_irq_handler_accept.
    + left. apply gpio_irq_handler_reject. assumption.
  - left. unfold gpio_irq_handler. mstep. rewrite E1, E2, E3. reflexivity.
Qed.

(** *** Consistency is kept *)

Lemma binary_give (s : Semaphore) :
  binary s -> snd (xSemaphoreGiveFromISR s) = mkSemaphore 1 1.
Proof. intros [-> | ->]; reflexivity. Qed.

Lemma consistent_raise (src : Source) (now : Z) (st : System) :
  consistent st -> consistent (raise src now st).
Proof.
  intros [Hl Hb Hg Hm Hr He Hs].
  destruct st as [mx us rs es ss g le ls lr]. simpl in *.
  unfold raise.
  destruct src; simpl; rewrite binary_give by assumption;
    constructor; simpl; auto; left; reflexivity.
Qed.

Lemma consistent_with_count (n : Z) (h : Handle) (st : System) :
  consistent st -> 0 <= n <= MAX_USUARIOS ->
  h = hEntradaSem \/ h = hSaidaSem \/ h = hResetSem ->
  consistent (with_count n (set_sem h (mkSemaphore 0 1) st)).
Proof.
  intros [Hl Hb Hg Hm Hr He Hs] Hn Hh.
  destruct st as [mx us rs es ss g le ls lr]. simpl in *.
  destruct Hh as [-> | [-> | ->]]; constructor; simpl; auto;
    right; reflexivity.
Qed.

Lemma binary_cases (s : Semaphore) :
  binary s -> s = mkSemaphore 1 1 \/ s = mkSemaphore 0 1.
Proof. auto. Qed.

Lemma feedback_in_range (n : Z) :
  0 <= n <= MAX_USUARIOS -> Forall snapshot_in_range (feedback_calls n).
Proof.
  intros Hn. unfold feedback_calls, led_calls, display_calls.
  destruct (color_levels (spec_color n)) as [[r g] b].
  repeat constructor. simpl. exists n. auto.
Qed.

Lemma rejection_tone_in_range : Forall snapshot_in_range rejection_tone.
Proof. repeat constructor. Qed.

Lemma confirmation_tone_in_range : Forall snapshot_in_range confirmation_tone.
Proof. repeat constructor. Qed.

Lemma boot_ok : kernel_ok boot.
Proof.
  split.
  - constructor; simpl; try reflexivity; try (right; reflexivity).
    unfold MAX_USUARIOS. lia.
  - simpl. repeat constructor. exists 0. split; [unfold MAX_USUARIOS; lia | reflexivity].
Qed.

Lemma step_ok (l : Label) (k : Kernel) : kernel_ok k -> kernel_ok (step l k).
Proof.
  intros [Hc Hlog]. destruct k as [st w lg]. simpl in *.
  pose proof Hc as [Hl Hb Hg Hm Hr He Hs].
  destruct l as [gpio now | | | now]; simpl.
  - destruct (gpio_irq_handler_cases gpio now st) as [E | (src & _ & _ & E)];
      rewrite E; split; simpl; auto using consistent_raise.
    + rewrite app_nil_r. assumption.
    + apply Forall_app. split; [assumption | repeat constructor].
  - destruct (binary_cases _ He) as [P | P].
    + rewrite vTaskEntrada_run by assumption. split; simpl.
      * apply (consistent_with_count _ hEntradaSem); auto. lia.
      * apply Forall_app. split; [assumption |].
        apply Forall_app. split.
        -- destruct (_ =? _); [apply rejection_tone_in_range | constructor].
        -- apply feedback_in_range. lia.
    + rewrite vTaskEntrada_blocked by assumption. split; simpl; auto.
      rewrite app_nil_r. assumption.
  - destruct (binary_cases _ Hs) as [P | P].
    + rewrite vTaskSaida_run by assumption. split; simpl.
      * apply (consistent_with_count _ hSaidaSem); auto. lia.
      * apply Forall_app. split; [assumption |].
        apply feedback_in_range. lia.
    + rewrite vTaskSaida_blocked by assumption. split; simpl; auto.
      rewrite app_nil_r. assumption.
  - destruct (now <? w); [split; assumption |].
    destruct (binary_cases _ Hr) as [P | P].
    + rewrite vTaskReset_run by (assumption || lia). split; simpl.
      * rewrite Hl. apply (consistent_with_count 0 hResetSem); auto.
        unfold MAX_USUARIOS. lia.
      * apply Forall_app. split; [assumption |].
        repeat constructor. exists 0. unfold MAX_USUARIOS. split; [lia | reflexivity].
    + rewrite vTaskReset_blocked by assumption. split; simpl; auto.
      rewrite app_nil_r. assumption.
Qed.

Lemma run_ok (ls : list Label) (k : Kernel) : kernel_ok k -> kernel_ok (run ls k).
Proof.
  revert k. induction ls as [| l ls IH]; intros k Hk; [assumption |].
  rewrite run_cons. apply IH. apply step_ok. assumption.
Qed.

(** *** Signals that reach their task *)

Lemma raise_pending (src : Source) (now : Z) (st : System) :
  consistent st -> pending (channel src) (raise src now st).
Proof.
  intros [Hl Hb Hg Hm Hr He Hs].
  destruct st as [mx us rs es ss g le ls lr]. simpl in *.
  unfold raise, pending.
  destruct src; simpl; apply binary_give; assumption.
Qed.

Lemma raise_g (src : Source) (now : Z) (st : System) :
  g_num_usuarios_ativos (raise src now st) = g_num_usuarios_ativos st.
Proof. destruct src; reflexivity. Qed.

Lemma raise_last (src : Source) (now : Z) (st : System) :
  last_debounce_time src (raise src now st) = now.
Proof. destruct src; reflexivity. Qed.

Lemma entry_signal (k : Kernel) (t : Z) :
  consistent (sys k) ->
  DEBOUNCE_DELAY_MS < sub32 t (last_debounce_time_entrada (sys k)) ->
  let k' := run [IRQ BOTAO_ENTRADA t; RunEntrada] k in
  consistent (sys k') /\
  last_debounce_time_entrada (sys k') = t /\
  g_num_usuarios_ativos (sys k') =
    Z.min (g_num_usuarios_ativos (sys k) + 1) MAX_USUARIOS.
Proof.
  intros Hc Ht. destruct k as [st w lg]. simpl in *.
  rewrite (gpio_irq_handler_accept Entrada) by assumption.
  pose proof (consistent_raise Entrada t st Hc) as Hc'.
  pose proof (raise_pending Entrada t st Hc) as Hp.
  simpl sys. rewrite vTaskEntrada_run by assumption.
  rewrite raise_g. simpl sys.
  destruct Hc as [Hl Hb Hg Hm Hr He Hs].
  split; [| split].
  - apply (consistent_with_count _ hEntradaSem (raise Entrada t st)); auto. lia.
  - reflexivity.
  - reflexivity.
Qed.

Lemma exit_signal (k : Kernel) (t : Z) :
  consistent (sys k) ->
  DEBOUNCE_DELAY_MS < sub32 t (last_debounce_time_saida (sys k)) ->
  let k' := run [IRQ BOTAO_SAIDA t; RunSaida] k in
  consistent (sys k') /\
  last_debounce_time_saida (sys k') = t /\
  g_num_usuarios_ativos (sys k') =
    Z.max 0 (g_num_usuarios_ativos (sys k) - 1).
Proof.
  intros Hc Ht. destruct k as [st w lg]. simpl in *.
  rewrite (gpio_irq_handler_accept Saida) by assumption.
  pose proof (consistent_raise Saida t st Hc) as Hc'.
  pose proof (raise_pending Saida t st Hc) as Hp.
  simpl sys. rewrite vTaskSaida_run by assumption.
  rewrite raise_g. simpl sys.
  destruct Hc as [Hl Hb Hg Hm Hr He Hs].
  split; [| split].
  - apply (consistent_with_count _ hSaidaSem (raise Saida t st)); auto. lia.
  - reflexivity.
  - reflexivity.
Qed.

Lemma entry_signals_count (ts : list Z) (k : Kernel) :
  consistent (sys k) ->
  spaced (last_debounce_time_entrada (sys k)) ts ->
  g_num_usuarios_ativos (sys (run (entry_signals ts) k)) =
    Z.min (g_num_usuarios_ativos (sys k) + Z.of_nat (List.length ts)) MAX_USUARIOS.
Proof.
  revert k. induction ts as [| t ts IH]; intros k Hc Hs.
  - simpl. destruct Hc as [Hl Hb Hg Hm Hr He Hs']. lia.
  - destruct Hs as [Ht Hs].
    change (entry_signals (t :: ts))
      with ([IRQ BOTAO_ENTRADA t; RunEntrada] ++ entry_signals ts).
    rewrite run_app.
    destruct (entry_signal k t Hc Ht) as (Hc' & Hlast & Hg').
    rewrite IH; [| assumption | rewrite Hlast; assumption].
    rewrite Hg'. rewrite length_cons, Nat2Z.inj_succ.
    destruct Hc as [Hl Hb Hg Hm Hr He Hs']. lia.
Qed.

Lemma exit_signals_count (ts : list Z) (k : Kernel) :
  consistent (sys k) ->
  spaced (last_debounce_time_saida (sys k)) ts ->
  g_num_usuarios_ativos (sys (run (exit_signals ts) k)) =
    Z.max 0 (g_num_usuarios_ativos (sys k) - Z.of_nat (List.length ts)).
Proof.
  revert k. induction ts as [| t ts IH]; intros k Hc Hs.
  - simpl. destruct Hc as [Hl Hb Hg Hm Hr He Hs']. lia.
  - destruct Hs as [Ht Hs].
    change (exit_signals (t :: ts))
      with ([IRQ BOTAO_SAIDA t; RunSaida] ++ exit_signals ts).
    rewrite run_app.
    destruct (exit_signal k t Hc Ht) as (Hc' & Hlast & Hg').
    rewrite IH; [| assumption | rewrite Hlast; assumption].
    rewrite Hg'. rewrite length_cons, Nat2Z.inj_succ.
    destruct Hc as [Hl Hb Hg Hm Hr He Hs']. lia.
Qed.

Lemma tones_feedback (n : Z) : tones (feedback_calls n) = 0%nat.
Proof.
  unfold feedback_calls, led_calls.
  destruct (color_levels (spec_color n)) as [[r g] b]. reflexivity.
Qed.

Lemma tones_app (t1 t2 : list Call) : tones (t1 ++ t2) = (tones t1 + tones t2)%nat.
Proof. unfold tones. rewrite filter_app, length_app. reflexivity. Qed.

Lemma consistent_run (ls : list Label) : consistent (sys (run ls boot)).
Proof. apply run_ok, boot_ok. Qed.

(** ** Properties of the program *)

(** C1. For every sequence of interrupts and task rounds (entry, exit and
    reset operations in any order) after start-up, where the count is 0, the
    occupancy count is within 0 and [MAX_USUARIOS] = 9, both in the counting
    semaphore and in the global the feedback reads, and every count the
    display has been given to print so far was within that range. *)
Theorem occupancy_stays_in_range (ls : list Label) :
  value snapshot (sys boot) = 0 /\
  MAX_USUARIOS = 9 /\
  0 <= value snapshot (sys (run ls boot)) <= MAX_USUARIOS /\
  0 <= uxSemaphoreGetCount (xUsuariosSem (sys (run ls boot))) <= MAX_USUARIOS /\
  Forall snapshot_in_range (log (run ls boot)).
Proof.
  destruct (run_ok ls boot boot_ok) as [[Hl Hb Hg Hm Hr He Hs] Hlog].
  unfold value, snapshot, read, uxSemaphoreGetCount. simpl fst.
  repeat split; try assumption; try reflexivity; lia.
Qed.

(** C2. A round of the Reset task that finds its signal pending leaves the
    snapshot at 0 and the counting semaphore empty whatever they held
    before, and what it emits is the two-pulse confirmation (tone, pause,
    tone), then the refreshed feedback for a count of 0 (blue, "VACANT"), then
    the cooldown delay. *)
Theorem reset_drains_and_confirms (st : System) :
  pending hResetSem st ->
  xDisplayMutex st = xSemaphoreCreateMutex ->
  well_formed (xUsuariosSem st) ->
  value snapshot (exec vTaskReset st) = 0 /\
  uxSemaphoreGetCount (xUsuariosSem (exec vTaskReset st)) = 0 /\
  trace vTaskReset st =
    [BuzzerSetFreq BUZZER_GPIO 1500; SleepMs 100; BuzzerStop BUZZER_GPIO;
     SleepMs 50;
     BuzzerSetFreq BUZZER_GPIO 1500; SleepMs 100; BuzzerStop BUZZER_GPIO]
    ++ (led_calls BLUE ++ display_calls 0 VACANT)
    ++ [TaskDelayMs 500].
Proof.
  intros Hp Hm [Hc _].
  unfold value, exec, trace. rewrite vTaskReset_run by assumption.
  repeat split.
Qed.

Lemma reset_drains_and_confirms_witness :
  value snapshot (sys reset_requested) = 5 /\
  value snapshot (exec vTaskReset (sys reset_requested)) = 0.
Proof.
  split; [reflexivity |].
  apply (reset_drains_and_confirms (sys reset_requested)).
  - reflexivity.
  - reflexivity.
  - split; vm_compute; discriminate.
Defined.

(** C3. [xSemaphoreGive] on the counting semaphore succeeds, adding one, if
    and only if the count is below [MAX_USUARIOS], and otherwise fails and
    changes nothing; a served entry signal therefore moves the count from n
    to n + 1 below the maximum and leaves it at the maximum; and after
    start-up, any number of entry signals that pass the filter and are served,
    with no exit or reset between them, leave the count at the minimum of
    their number and [MAX_USUARIOS]. *)
Theorem try_enter_counts_to_max :
  (forall st, consistent st ->
     (value (semGive hUsuariosSem) st = pdPASS <->
        uxSemaphoreGetCount (xUsuariosSem st) < MAX_USUARIOS) /\
     (uxSemaphoreGetCount (xUsuariosSem st) < MAX_USUARIOS ->
        uxSemaphoreGetCount (xUsuariosSem (exec (semGive hUsuariosSem) st)) =
          uxSemaphoreGetCount (xUsuariosSem st) + 1) /\
     (~ uxSemaphoreGetCount (xUsuariosSem st) < MAX_USUARIOS ->
        value (semGive hUsuariosSem) st = pdFAIL /\
        exec (semGive hUsuariosSem) st = st)) /\
  (forall st, consistent st -> pending hEntradaSem st ->
     value snapshot (exec vTaskEntrada st) =
       if value snapshot st <? MAX_USUARIOS
       then value snapshot st + 1 else value snapshot st) /\
  (forall ts, spaced 0 ts ->
     value snapshot (sys (run (entry_signals ts) boot)) =
       Z.min (Z.of_nat (List.length ts)) MAX_USUARIOS).
Proof.
  split; [| split].
  - intros st [Hl Hb Hg Hm Hr He Hs].
    destruct st as [mx [c len] rs es ss g le ls lr]. simpl in *. subst.
    unfold value, exec, semGive, xSemaphoreGive, uxSemaphoreGetCount. simpl.
    destruct (c <? MAX_USUARIOS) eqn:E; simpl.
    + apply Z.ltb_lt in E. split; [tauto |]. split; [reflexivity | lia].
    + apply Z.ltb_ge in E. split; [| split; [lia | auto]].
      split; [discriminate | lia].
  - intros st Hc Hp. unfold value, exec, snapshot, read. simpl fst.
    rewrite vTaskEntrada_run by assumption. simpl.
    destruct Hc as [Hl Hb Hg Hm Hr He Hs].
    destruct (_ <? _) eqn:E; [apply Z.ltb_lt in E | apply Z.ltb_ge in E]; lia.
  - intros ts Hs. unfold value, snapshot, read. simpl fst.
    rewrite entry_signals_count.
    + reflexivity.
    + apply boot_ok.
    + assumption.
Qed.

Lemma try_enter_counts_to_max_witness :
  value snapshot (sys three_inside) = 3.
Proof.
  refine (eq_trans (proj2 (proj2 try_enter_counts_to_max) [300; 600; 900] _) _).
  - vm_compute. repeat split.
  - reflexivity.
Defined.

(** C4. [xSemaphoreTake] with no block time on the counting semaphore
    succeeds, removing one, if and only if the count is above 0, and otherwise
    fails and changes nothing; a served exit signal therefore moves the count
    from n to n - 1 above zero and leaves it at zero, starts no tone in either
    case, and refreshes the LED and the display with the resulting count; and
    from any consistent state, any number of exit signals that pass the filter
    and are served, with no entry or reset between them, leave the count at
    the maximum of 0 and the initial count less their number. *)
Theorem try_exit_floors_at_zero :
  (forall st, consistent st ->
     (value (semTake hUsuariosSem) st = pdTRUE <->
        0 < uxSemaphoreGetCount (xUsuariosSem st)) /\
     (0 < uxSemaphoreGetCount (xUsuariosSem st) ->
        uxSemaphoreGetCount (xUsuariosSem (exec (semTake hUsuariosSem) st)) =
          uxSemaphoreGetCount (xUsuariosSem st) - 1) /\
     (~ 0 < uxSemaphoreGetCount (xUsuariosSem st) ->
        value (semTake hUsuariosSem) st = pdFALSE /\
        exec (semTake hUsuariosSem) st = st)) /\
  (forall st, consistent st -> pending hSaidaSem st ->
     value snapshot (exec vTaskSaida st) =
       (if 0 <? value snapshot st
        then value snapshot st - 1 else value snapshot st) /\
     tones (trace vTaskSaida st) = 0%nat /\
     trace vTaskSaida st =
       feedback_calls (value snapshot (exec vTaskSaida st))) /\
  (forall k ts, consistent (sys k) ->
     spaced (last_debounce_time_saida (sys k)) ts ->
     value snapshot (sys (run (exit_signals ts) k)) =
       Z.max 0 (value snapshot (sys k) - Z.of_nat (List.length ts))).
Proof.
  split; [| split].
  - intros st [Hl Hb Hg Hm Hr He Hs].
    destruct st as [mx [c len] rs es ss g le ls lr]. simpl in *. subst.
    unfold value, exec, semTake, xSemaphoreTake, uxSemaphoreGetCount. simpl.
    destruct (0 <? c) eqn:E; simpl.
    + apply Z.ltb_lt in E. split; [tauto |]. split; [reflexivity | lia].
    + apply Z.ltb_ge in E. split; [| split; [lia | auto]].
      split; [discriminate | lia].
  - intros st Hc Hp. unfold value, exec, trace, snapshot, read. simpl fst.
    rewrite vTaskSaida_run by assumption. simpl.
    destruct Hc as [Hl Hb Hg Hm Hr He Hs].
    split; [| split].
    + destruct (_ <? _) eqn:E; [apply Z.ltb_lt in E | apply Z.ltb_ge in E]; lia.
    + apply tones_feedback.
    + reflexivity.
  - intros k ts Hc Hs. unfold value, snapshot, read. simpl fst.
    apply exit_signals_count; assumption.
Qed.

Lemma try_exit_floors_at_zero_witness :
  value snapshot (sys (run (exit_signals [1300; 1600; 1900; 2200]) three_inside)) = 0.
Proof.
  refine (eq_trans
            (proj2 (proj2 try_exit_floors_at_zero) three_inside
               [1300; 1600; 1900; 2200] _ _) _).
  - apply consistent_run.
  - vm_compute. repeat split.
  - reflexivity.
Defined.


(** C6. For a count n between 0 and [MAX_USUARIOS], the display helper draws
    the count line and the label VACANT for n = 0, OK for 0 < n < MAX and
    FULL for n = MAX, and the LED helper sets the levels of blue for n = 0,
    green for 0 < n <= MAX - 2, amber for n = MAX - 1 and red for n = MAX. *)
Theorem status_and_color_tiers (st : System) (n : Z) :
  value snapshot st = n ->
  0 <= n <= MAX_USUARIOS ->
  xDisplayMutex st = xSemaphoreCreateMutex ->
  exists (s : Status) (c : Color),
    trace atualizar_feedback_display st = display_calls n s /\
    trace atualizar_feedback_led_rgb st = led_calls c /\
    (n = 0 -> s = VACANT /\ c = BLUE) /\
    (0 < n < MAX_USUARIOS -> s = OK) /\
    (n = MAX_USUARIOS -> s = FULL /\ c = RED) /\
    (0 < n <= MAX_USUARIOS - 2 -> c = GREEN) /\
    (n = MAX_USUARIOS - 1 -> c = AMBER).
Proof.
  unfold value, snapshot, read, trace. simpl fst. intros Hg Hn Hm.
  exists (spec_status n), (spec_color n).
  rewrite atualizar_feedback_display_run by assumption.
  rewrite atualizar_feedback_led_rgb_run by lia.
  rewrite Hg. simpl snd.
  split; [reflexivity |]. split; [reflexivity |].
  unfold spec_status, spec_color, MAX_USUARIOS in *.
  destruct (Z.eqb_spec n 0); destruct (Z.ltb_spec n 9);
    destruct (Z.leb_spec n (9 - 2)); destruct (Z.eqb_spec n (9 - 1));
    repeat split; intros; try reflexivity; lia.
Qed.

Lemma status_and_color_tiers_witness :
  trace atualizar_feedback_display (sys three_inside) = display_calls 3 OK /\
  trace atualizar_feedback_led_rgb (sys three_inside) = led_calls GREEN.
Proof.
  destruct (status_and_color_tiers (sys three_inside) 3)
    as (s & c & Hd & Hl & _ & Hok & _ & Hgreen & _).
  - reflexivity.
  - vm_compute. split; discriminate.
  - reflexivity.
  - rewrite Hd, Hl.
    rewrite Hok by (vm_compute; split; reflexivity).
    rewrite Hgreen by (vm_compute; split; [reflexivity | discriminate]).
    split; reflexivity.
Defined.

(** *** Debounce *)

Lemma accepted_raise (src : Source) :
  accepted src [GiveFromISR (channel src)] = 1%nat.
Proof. destruct src; reflexivity. Qed.

Lemma step_irq_rejected (gpio now : Z) (k : Kernel) :
  gpio_irq_handler gpio now (sys k) = (tt, sys k, []) ->
  step (IRQ gpio now) k = k.
Proof.
  intros E. destruct k as [st w lg]. simpl in *. rewrite E.
  rewrite app_nil_r. reflexivity.
Qed.

(** C7, as the program has it.  The handler lets an edge on a source through
    (raises the source's channel once) if and only if the wrapped 32-bit
    difference between the time of the edge and the source's timestamp
    exceeds 200 ms, which is the plain difference as long as the clock has not
    wrapped; it sets the timestamp to the time of the edge exactly then, and
    changes nothing otherwise.  Hence of two edges on one source no more than
    200 ms apart at most one is let through, and exactly one when the first
    of them is. *)
Theorem debounce_window (src : Source) (st : System) (now : Z) :
  (accepted src (trace (gpio_irq_handler (pin src) now) st) = 1%nat <->
     DEBOUNCE_DELAY_MS < sub32 now (last_debounce_time src st)) /\
  (DEBOUNCE_DELAY_MS < sub32 now (last_debounce_time src st) ->
     trace (gpio_irq_handler (pin src) now) st = [GiveFromISR (channel src)] /\
     last_debounce_time src (exec (gpio_irq_handler (pin src) now) st) = now) /\
  (sub32 now (last_debounce_time src st) <= DEBOUNCE_DELAY_MS ->
     gpio_irq_handler (pin src) now st = (tt, st, [])) /\
  (0 <= last_debounce_time src st <= now -> now < 2 ^ 32 ->
     sub32 now (last_debounce_time src st) = now - last_debounce_time src st) /\
  (forall t2, sub32 t2 now <= DEBOUNCE_DELAY_MS ->
     (accepted src (trace (two_edges src now t2) st) <= 1)%nat /\
     (DEBOUNCE_DELAY_MS < sub32 now (last_debounce_time src st) ->
        accepted src (trace (two_edges src now t2) st) = 1%nat)).
Proof.
  assert (Hacc : DEBOUNCE_DELAY_MS < sub32 now (last_debounce_time src st) ->
                 forall t2, sub32 t2 now <= DEBOUNCE_DELAY_MS ->
                 accepted src (trace (two_edges src now t2) st) = 1%nat).
  { intros H t2 H2. unfold trace, two_edges.
    erewrite run_bind by (apply gpio_irq_handler_accept; assumption).
    rewrite gpio_irq_handler_reject by (rewrite raise_last; assumption).
    simpl snd. apply accepted_raise. }
  split; [| split; [| split; [| split]]].
  - unfold trace.
    destruct (Z_lt_le_dec DEBOUNCE_DELAY_MS (sub32 now (last_debounce_time src st)))
      as [Ha | Hr].
    + rewrite gpio_irq_handler_accept by assumption. simpl snd.
      rewrite accepted_raise. tauto.
    + rewrite gpio_irq_handler_reject by assumption. simpl.
      unfold accepted. simpl. split; [discriminate | lia].
  - intros H. unfold trace, exec.
    rewrite gpio_irq_handler_accept by assumption. simpl.
    split; [reflexivity | apply raise_last].
  - apply gpio_irq_handler_reject.
  - apply sub32_small.
  - intros t2 H2. split; [| intros H; apply Hacc; assumption].
    destruct (Z_lt_le_dec DEBOUNCE_DELAY_MS (sub32 now (last_debounce_time src st)))
      as [Ha | Hr].
    + rewrite Hacc by assumption. lia.
    + unfold trace, two_edges.
      erewrite run_bind by (apply gpio_irq_handler_reject; assumption).
      destruct (Z_lt_le_dec DEBOUNCE_DELAY_MS (sub32 t2 (last_debounce_time src st)))
        as [Ha2 | Hr2].
      * rewrite gpio_irq_handler_accept by assumption. simpl snd.
        rewrite accepted_raise. lia.
      * rewrite gpio_irq_handler_reject by assumption. simpl.
        unfold accepted. simpl. lia.
Qed.

Lemma debounce_window_witness :
  accepted Entrada (trace (two_edges Entrada 300 450) (sys boot)) = 1%nat.
Proof.
  apply (proj2 (proj2 (proj2 (proj2 (debounce_window Entrada (sys boot) 300)))) 450).
  - vm_compute. discriminate.
  - vm_compute. reflexivity.
Defined.

(** C7, as the spec has it, fails: two edges on the entry button 50 ms and
    100 ms after start-up are within the window of each other, and neither of
    them is let through. *)
Lemma two_early_edges_none_accepted :
  sub32 100 50 <= DEBOUNCE_DELAY_MS /\
  accepted Entrada (trace (two_edges Entrada 50 100) (sys boot)) = 0%nat /\
  accepted Entrada (trace (two_edges Entrada 50 100) (sys boot)) <> 1%nat.
Proof.
  split; [vm_compute; discriminate |]. split; [reflexivity | discriminate].
Qed.

(** *** Steps of the scheduler in closed form *)

Lemma step_irq_accepted (src : Source) (now : Z) (k : Kernel) :
  DEBOUNCE_DELAY_MS < sub32 now (last_debounce_time src (sys k)) ->
  step (IRQ (pin src) now) k =
    mkKernel (raise src now (sys k)) (reset_wake k)
      (log k ++ [GiveFromISR (channel src)]).
Proof.
  intros H. destruct k as [st w lg]. simpl in *.
  rewrite (gpio_irq_handler_accept src now st) by assumption. reflexivity.
Qed.

Lemma step_entrada_served (k : Kernel) :
  consistent (sys k) -> pending hEntradaSem (sys k) ->
  step RunEntrada k =
    mkKernel
      (with_count (Z.min (g_num_usuarios_ativos (sys k) + 1) MAX_USUARIOS)
         (set_sem hEntradaSem (mkSemaphore 0 1) (sys k)))
      (reset_wake k)
      (log k ++
       (if g_num_usuarios_ativos (sys k) =? MAX_USUARIOS
        then rejection_tone else []) ++
       feedback_calls (Z.min (g_num_usuarios_ativos (sys k) + 1) MAX_USUARIOS)).
Proof.
  intros Hc Hp. destruct k as [st w lg]. simpl in *.
  rewrite vTaskEntrada_run by assumption. reflexivity.
Qed.

Lemma step_entrada_blocked (k : Kernel) :
  empty hEntradaSem (sys k) -> step RunEntrada k = k.
Proof.
  intros He. destruct k as [st w lg]. simpl in *.
  rewrite vTaskEntrada_blocked by assumption. rewrite app_nil_r. reflexivity.
Qed.

Lemma step_reset_served (now : Z) (k : Kernel) :
  consistent (sys k) -> pending hResetSem (sys k) -> reset_wake k <= now ->
  step (RunReset now) k =
    mkKernel
      (with_count 0 (set_sem hResetSem (mkSemaphore 0 1) (sys k)))
      (now + 750)
      (log k ++ confirmation_tone ++ feedback_calls 0 ++ [TaskDelayMs 500]).
Proof.
  intros Hc Hp Hw. destruct k as [st w lg]. simpl in *.
  destruct Hc as [Hl Hb Hg Hm Hr He Hs].
  replace (now <? w) with false by (symmetry; apply Z.ltb_ge; assumption).
  rewrite vTaskReset_run by (assumption || lia).
  rewrite Hl. reflexivity.
Qed.

Lemma step_reset_delayed (now : Z) (k : Kernel) :
  now < reset_wake k -> step (RunReset now) k = k.
Proof.
  intros Hw. simpl.
  replace (now <? reset_wake k) with true by (symmetry; apply Z.ltb_lt; assumption).
  reflexivity.
Qed.

(** *** The channels *)

Lemma raise_sems (src : Source) (now : Z) (st : System) (h : Handle) :
  pending (channel src) st -> sem h (raise src now st) = sem h st.
Proof.
  destruct st as [mx us rs es ss g le ls lr]. unfold pending, raise.
  destruct src; simpl; intros ->; destruct h; reflexivity.
Qed.

Lemma with_count_entrada_empty (n : Z) (st : System) :
  empty hEntradaSem (with_count n (set_sem hEntradaSem (mkSemaphore 0 1) st)).
Proof. reflexivity. Qed.

(** C8. Each of the three channels is a binary semaphore: after any sequence
    of interrupts and task rounds it holds no token or one, never more.  A
    raise on a channel whose signal is still pending fails and leaves every
    semaphore as it was, whether or not the edge passed the filter; so two
    accepted entry edges raised before the Entry task runs wake it once, and
    the count moves by one, not two. *)
Theorem channels_hold_one_signal :
  (forall ls src,
     uxLength (sem (channel src) (sys (run ls boot))) = 1 /\
     0 <= uxSemaphoreGetCount (sem (channel src) (sys (run ls boot))) <= 1) /\
  (forall src st now, consistent st -> pending (channel src) st ->
     value (semGiveFromISR (channel src)) st = pdFAIL /\
     exec (semGiveFromISR (channel src)) st = st /\
     forall h, sem h (exec (gpio_irq_handler (pin src) now) st) = sem h st) /\
  (forall k t1 t2, consistent (sys k) ->
     spaced (last_debounce_time_entrada (sys k)) [t1; t2] ->
     let k2 := run [IRQ BOTAO_ENTRADA t1; IRQ BOTAO_ENTRADA t2] k in
     accepted Entrada (log k2) = (accepted Entrada (log k) + 2)%nat /\
     pending hEntradaSem (sys k2) /\
     step RunEntrada (step RunEntrada k2) = step RunEntrada k2 /\
     value snapshot (sys (step RunEntrada k2)) =
       Z.min (value snapshot (sys k) + 1) MAX_USUARIOS).
Proof.
  split; [| split].
  - intros ls src.
    destruct (consistent_run ls) as [_ _ _ _ Hr He Hs].
    unfold uxSemaphoreGetCount.
    destruct src; simpl;
      match goal with H : binary ?s |- context [?s] => destruct H as [-> | ->] end;
      simpl; lia.
  - intros src st now Hc Hp. split; [| split].
    + unfold value, semGiveFromISR. rewrite Hp. reflexivity.
    + unfold exec, semGiveFromISR. rewrite Hp. simpl. rewrite <- Hp.
      destruct st as [mx us rs es ss g le ls lr]. destruct src; reflexivity.
    + intros h. unfold exec.
      destruct (Z_lt_le_dec DEBOUNCE_DELAY_MS (sub32 now (last_debounce_time src st)))
        as [Ha | Hr].
      * rewrite gpio_irq_handler_accept by assumption. simpl.
        apply raise_sems. assumption.
      * rewrite gpio_irq_handler_reject by assumption. reflexivity.
  - intros k t1 t2 Hc (H1 & H2 & _). cbv zeta.
    pose proof (consistent_raise Entrada t1 (sys k) Hc) as Hc1.
    pose proof (consistent_raise Entrada t2 _ Hc1) as Hc2.
    pose proof (raise_pending Entrada t2 _ Hc1) as Hp2.
    assert (Hk2 : run [IRQ BOTAO_ENTRADA t1; IRQ BOTAO_ENTRADA t2] k =
                  mkKernel (raise Entrada t2 (raise Entrada t1 (sys k)))
                    (reset_wake k)
                    ((log k ++ [GiveFromISR hEntradaSem])
                       ++ [GiveFromISR hEntradaSem])).
    { change (run [IRQ BOTAO_ENTRADA t1; IRQ BOTAO_ENTRADA t2] k)
        with (step (IRQ (pin Entrada) t2) (step (IRQ (pin Entrada) t1) k)).
      rewrite (step_irq_accepted Entrada t1 k) by assumption.
      rewrite step_irq_accepted
        by (cbn [sys]; rewrite (raise_last Entrada); assumption).
      reflexivity. }
    rewrite Hk2. clear Hk2.
    set (k2 := mkKernel (raise Entrada t2 (raise Entrada t1 (sys k))) _ _).
    split; [| split; [assumption | split]].
    + unfold accepted, k2. cbn [log].
      rewrite <- !app_assoc, filter_app, length_app. reflexivity.
    + rewrite (step_entrada_served k2) by assumption.
      apply step_entrada_blocked. reflexivity.
    + rewrite (step_entrada_served k2) by assumption. reflexivity.
Qed.

Lemma channels_hold_one_signal_witness :
  value snapshot
    (sys (step RunEntrada
            (run [IRQ BOTAO_ENTRADA 300; IRQ BOTAO_ENTRADA 600] boot))) = 1.
Proof.
  refine (eq_trans
            (proj2 (proj2 (proj2
               (proj2 (proj2 channels_hold_one_signal) boot 300 600 _ _)))) _).
  - apply boot_ok.
  - vm_compute. repeat split.
  - reflexivity.
Defined.

(** *** The cooldown of the Reset task *)

(** C9, as the program has it.  While the Reset task sleeps in its delay, a
    reset edge that passes the 200 ms filter is raised on the reset channel
    and stays pending there.  No round of the task before the end of the
    delay does anything; the first round at or after the end of the delay
    serves the pending signal: it drains the count again, emits the two-pulse
    confirmation again and starts a new delay.  A reset edge within 200 ms of
    the last accepted one changes nothing. *)
Theorem reset_in_cooldown_is_deferred (k : Kernel) (t now : Z) :
  consistent (sys k) ->
  empty hResetSem (sys k) ->
  t < reset_wake k ->
  (sub32 t (last_debounce_time_reset (sys k)) <= DEBOUNCE_DELAY_MS ->
     step (IRQ BOTAO_RESET t) k = k) /\
  (DEBOUNCE_DELAY_MS < sub32 t (last_debounce_time_reset (sys k)) ->
     let k' := step (IRQ BOTAO_RESET t) k in
     pending hResetSem (sys k') /\
     reset_actions (log k') = reset_actions (log k) /\
     (now < reset_wake k -> step (RunReset now) k' = k') /\
     (reset_wake k <= now ->
        log (step (RunReset now) k') =
          log k' ++ confirmation_tone ++ feedback_calls 0 ++ [TaskDelayMs 500] /\
        reset_actions (log (step (RunReset now) k')) =
          S (reset_actions (log k)) /\
        value snapshot (sys (step (RunReset now) k')) = 0 /\
        reset_wake (step (RunReset now) k') = now + 750)).
Proof.
  intros Hc He Ht. split.
  - intros Hr. apply step_irq_rejected.
    apply (gpio_irq_handler_reject Reset). assumption.
  - intros Ha. cbv zeta.
    change BOTAO_RESET with (pin Reset).
    rewrite (step_irq_accepted Reset t k) by assumption.
    pose proof (consistent_raise Reset t (sys k) Hc) as Hc1.
    pose proof (raise_pending Reset t (sys k) Hc) as Hp1.
    set (k' := mkKernel (raise Reset t (sys k)) _ _).
    assert (Hlog : reset_actions (log k') = reset_actions (log k)).
    { unfold reset_actions, k'. cbn [log].
      rewrite filter_app, length_app. simpl. lia. }
    split; [assumption | split; [assumption | split]].
    + intros Hn. apply step_reset_delayed. assumption.
    + intros Hn. rewrite (step_reset_served now k') by assumption.
      cbn [log sys reset_wake].
      split; [reflexivity | split; [| split; reflexivity]].
      unfold reset_actions in *. rewrite filter_app, length_app, Hlog.
      simpl. lia.
Qed.

Lemma reset_in_cooldown_is_deferred_witness :
  reset_wake reset_served = 2750 /\
  step (RunReset 2500) (step (IRQ BOTAO_RESET 2400) reset_served) =
    step (IRQ BOTAO_RESET 2400) reset_served /\
  reset_actions
    (log (step (RunReset 2750) (step (IRQ BOTAO_RESET 2400) reset_served))) =
    2%nat.
Proof.
  split; [reflexivity |].
  destruct (reset_in_cooldown_is_deferred reset_served 2400 2500)
    as [_ H1].
  { apply step_ok, step_ok, run_ok, boot_ok. }
  { reflexivity. }
  { vm_compute. reflexivity. }
  destruct (reset_in_cooldown_is_deferred reset_served 2400 2750)
    as [_ H2].
  { apply step_ok, step_ok, run_ok, boot_ok. }
  { reflexivity. }
  { vm_compute. reflexivity. }
  split.
  - apply H1; vm_compute; reflexivity.
  - refine (eq_trans (proj1 (proj2 (proj2 (proj2 (proj2 (H2 _))) _))) _);
      vm_compute; (reflexivity || discriminate).
Defined.

(** C9, as the spec has it, fails.  Five occupants; a reset edge at 2000 ms is
    served at once, and the task then sleeps until 2750 ms.  A second reset
    edge at 2400 ms, inside that delay and 400 ms after the first, is not
    ignored: once the delay is over the task performs a second reset action,
    with its own drain and two-pulse tone.  Without the second edge the same
    round does nothing. *)
Lemma reset_in_cooldown_is_served :
  value snapshot (sys reset_requested) = 5 /\
  value snapshot (sys reset_served) = 0 /\
  reset_actions (log reset_served) = 1%nat /\
  tones (log reset_served) = 2%nat /\
  reset_wake reset_served = 2750 /\
  reset_actions
    (log (run [IRQ BOTAO_RESET 2400; RunReset 2750] reset_served)) = 2%nat /\
  tones (log (run [IRQ BOTAO_RESET 2400; RunReset 2750] reset_served)) = 4%nat /\
  reset_actions (log (run [RunReset 2750] reset_served)) = 1%nat.
Proof. vm_compute. repeat split. Qed.

(** *** The first press *)

Lemma sub32_zero (now : Z) : 0 <= now < 2 ^ 32 -> sub32 now 0 = now.
Proof. intros H. rewrite sub32_small; lia. Qed.

(** C10. All three debounce timestamps start at 0.  While a source's
    timestamp is 0, an edge on it is let through if and only if its time is
    above 200 ms, and an edge at 200 ms or earlier changes nothing; so no
    sequence of edges, on whatever pins, whose times are all within the first
    200 ms after boot changes the state or raises a signal. *)
Theorem first_press_needs_200ms :
  (forall src, last_debounce_time src (sys boot) = 0) /\
  (forall src st now,
     last_debounce_time src st = 0 -> 0 <= now < 2 ^ 32 ->
     (accepted src (trace (gpio_irq_handler (pin src) now) st) = 1%nat <->
        DEBOUNCE_DELAY_MS < now) /\
     (now <= DEBOUNCE_DELAY_MS ->
        gpio_irq_handler (pin src) now st = (tt, st, []))) /\
  (forall es,
     Forall (fun e => 0 <= snd e <= DEBOUNCE_DELAY_MS) es ->
     run (edges es) boot = boot).
Proof.
  split; [| split].
  - intros src. destruct src; reflexivity.
  - intros src st now Hl Hn.
    assert (Hs : sub32 now (last_debounce_time src st) = now)
      by (rewrite Hl; apply sub32_zero; assumption).
    split.
    + unfold trace.
      destruct (Z_lt_le_dec DEBOUNCE_DELAY_MS now) as [Ha | Hr].
      * rewrite gpio_irq_handler_accept by (rewrite Hs; assumption).
        simpl snd. rewrite accepted_raise. tauto.
      * rewrite gpio_irq_handler_reject by (rewrite Hs; assumption).
        unfold accepted. simpl. split; [discriminate | lia].
    + intros Hr. apply gpio_irq_handler_reject. rewrite Hs. assumption.
  - intros es Hes. induction Hes as [| [gpio now] es Hnow _ IH]; [reflexivity |].
    simpl in Hnow. unfold edges. simpl map. rewrite run_cons.
    rewrite step_irq_rejected; [exact IH |].
    destruct (gpio_irq_handler_cases gpio now (sys boot))
      as [E | (src & _ & Ha & _)]; [exact E | exfalso].
    replace (last_debounce_time src (sys boot)) with 0 in Ha
      by (destruct src; reflexivity).
    rewrite sub32_zero in Ha; unfold DEBOUNCE_DELAY_MS in *; lia.
Qed.

Lemma first_press_needs_200ms_witness :
  run (edges [(BOTAO_ENTRADA, 0); (BOTAO_ENTRADA, 200); (BOTAO_SAIDA, 100);
              (BOTAO_RESET, 150)]) boot = boot.
Proof.
  apply (proj2 (proj2 first_press_needs_200ms)).
  repeat constructor; vm_compute; discriminate.
Defined.

(** ** Further properties *)

(** *** What the interrupt handler leaves alone *)

Lemma raise_other (src other : Source) (now : Z) (st : System) :
  src <> other ->
  last_debounce_time other (raise src now st) = last_debounce_time other st /\
  sem (channel other) (raise src now st) = sem (channel other) st.
Proof.
  intros Hne. destruct st as [mx us rs es ss g le ls lr].
  destruct src, other; try contradiction; split; reflexivity.
Qed.

Lemma raise_counter (src : Source) (now : Z) (st : System) :
  xUsuariosSem (raise src now st) = xUsuariosSem st /\
  xDisplayMutex (raise src now st) = xDisplayMutex st.
Proof. destruct src; split; reflexivity. Qed.

Lemma pin_injective (a b : Source) : pin a = pin b -> a = b.
Proof. destruct a, b; intros H; try reflexivity; discriminate H. Qed.

(** X1. Whatever the pin, the time and the state, the handler makes no driver
    call (at most one call, a raise of a channel), never changes the count,
    the counting semaphore or the display mutex, and leaves the timestamp and
    the channel of every source other than the one whose pin it was called
    for as they were; for a pin that is none of the three buttons it changes
    nothing at all. *)
Theorem handler_touches_its_source_only (gpio now : Z) (st : System) :
  forallb is_signal (trace (gpio_irq_handler gpio now) st) = true /\
  (List.length (trace (gpio_irq_handler gpio now) st) <= 1)%nat /\
  g_num_usuarios_ativos (exec (gpio_irq_handler gpio now) st) =
    g_num_usuarios_ativos st /\
  xUsuariosSem (exec (gpio_irq_handler gpio now) st) = xUsuariosSem st /\
  xDisplayMutex (exec (gpio_irq_handler gpio now) st) = xDisplayMutex st /\
  (forall other, gpio <> pin other ->
     last_debounce_time other (exec (gpio_irq_handler gpio now) st) =
       last_debounce_time other st /\
     sem (channel other) (exec (gpio_irq_handler gpio now) st) =
       sem (channel other) st) /\
  ((forall src, gpio <> pin src) ->
     gpio_irq_handler gpio now st = (tt, st, [])).
Proof.
  unfold trace, exec.
  destruct (gpio_irq_handler_cases gpio now st) as [E | (src & -> & Ha & E)];
    rewrite E; simpl.
  - repeat split; auto.
  - destruct (raise_counter src now st) as [Hu Hm].
    repeat split; auto using raise_g.
    + apply raise_other. intros ->. contradiction.
    + apply raise_other. intros ->. contradiction.
    + intros H. exfalso. apply (H src). reflexivity.
Qed.

(** X2. Edges on two different sources are handled independently: taken in
    either order they leave the same state, and each is let through or not
    exactly as it would be on its own. *)
Theorem edges_on_different_sources_commute
    (a b : Source) (ta tb : Z) (st : System) :
  a <> b ->
  exec (gpio_irq_handler (pin a) ta ;; gpio_irq_handler (pin b) tb) st =
    exec (gpio_irq_handler (pin b) tb ;; gpio_irq_handler (pin a) ta) st /\
  accepted a (trace (gpio_irq_handler (pin a) ta ;; gpio_irq_handler (pin b) tb) st) =
    accepted a (trace (gpio_irq_handler (pin a) ta) st) /\
  accepted b (trace (gpio_irq_handler (pin a) ta ;; gpio_irq_handler (pin b) tb) st) =
    accepted b (trace (gpio_irq_handler (pin b) tb) st).
Proof.
  intros Hne.
  assert (Hba : b <> a) by (intros ->; contradiction).
  assert (Hswap : raise b tb (raise a ta st) = raise a ta (raise b tb st)).
  { destruct st as [mx us rs es ss g le ls lr].
    destruct a, b; try contradiction; reflexivity. }
  assert (Hcross : forall x y, x <> y ->
            accepted x [GiveFromISR (channel y)] = 0%nat).
  { intros x y Hxy. destruct x, y; try contradiction; reflexivity. }
  unfold exec, trace.
  destruct (Z_lt_le_dec DEBOUNCE_DELAY_MS (sub32 ta (last_debounce_time a st)))
    as [Ha | Ha];
  destruct (Z_lt_le_dec DEBOUNCE_DELAY_MS (sub32 tb (last_debounce_time b st)))
    as [Hb | Hb].
  - erewrite !run_bind
      by first [ apply gpio_irq_handler_accept; assumption ].
    rewrite (gpio_irq_handler_accept b)
      by (rewrite (proj1 (raise_other a b ta st Hne)); assumption).
    rewrite (gpio_irq_handler_accept a)
      by (rewrite (proj1 (raise_other b a tb st Hba)); assumption).
    rewrite (gpio_irq_handler_accept a), (gpio_irq_handler_accept b) by assumption.
    simpl. rewrite Hswap.
    split; [reflexivity |]. unfold accepted at 1 3. simpl.
    destruct a, b; try contradiction; split; reflexivity.
  - erewrite (run_bind (gpio_irq_handler (pin a) ta))
      by (apply gpio_irq_handler_accept; assumption).
    erewrite (run_bind (gpio_irq_handler (pin b) tb))
      by (apply gpio_irq_handler_reject; assumption).
    rewrite (gpio_irq_handler_reject b)
      by (rewrite (proj1 (raise_other a b ta st Hne)); assumption).
    rewrite (gpio_irq_handler_accept a), (gpio_irq_handler_reject b) by assumption.
    simpl. split; [reflexivity |]. split; [reflexivity |].
    apply Hcross. assumption.
  - erewrite (run_bind (gpio_irq_handler (pin a) ta))
      by (apply gpio_irq_handler_reject; assumption).
    erewrite (run_bind (gpio_irq_handler (pin b) tb))
      by (apply gpio_irq_handler_accept; assumption).
    rewrite (gpio_irq_handler_reject a)
      by (rewrite (proj1 (raise_other b a tb st Hba)); assumption).
    rewrite (gpio_irq_handler_accept b), (gpio_irq_handler_reject a) by assumption.
    simpl. split; [reflexivity |]. split; [| reflexivity].
    apply Hcross. assumption.
  - erewrite !run_bind
      by first [ apply gpio_irq_handler_reject; assumption ].
    rewrite !gpio_irq_handler_reject by assumption.
    simpl. repeat split.
Qed.

Lemma edges_on_different_sources_commute_witness :
  exec (gpio_irq_handler (pin Entrada) 300 ;; gpio_irq_handler (pin Reset) 100)
    (sys boot) =
  exec (gpio_irq_handler (pin Reset) 100 ;; gpio_irq_handler (pin Entrada) 300)
    (sys boot).
Proof.
  apply (edges_on_different_sources_commute Entrada Reset 300 100 (sys boot)).
  discriminate.
Defined.

(** X3. The filter measures elapsed time across a wrap of the 32-bit
    millisecond clock: if [d] milliseconds, fewer than 2^32, have passed since
    the source's timestamp, the edge is let through if and only if [d]
    exceeds 200, also when the clock value is smaller than the timestamp. *)
Theorem debounce_spans_clock_wrap (src : Source) (st : System) (d : Z) :
  0 <= d < 2 ^ 32 ->
  accepted src
    (trace (gpio_irq_handler (pin src)
              ((last_debounce_time src st + d) mod 2 ^ 32)) st) = 1%nat <->
  DEBOUNCE_DELAY_MS < d.
Proof.
  intros Hd.
  set (now := (last_debounce_time src st + d) mod 2 ^ 32).
  assert (Hs : sub32 now (last_debounce_time src st) = d).
  { unfold sub32, now. rewrite Zminus_mod_idemp_l.
    replace (last_debounce_time src st + d - last_debounce_time src st)
      with d by lia.
    apply Z.mod_small. assumption. }
  unfold trace.
  destruct (Z_lt_le_dec DEBOUNCE_DELAY_MS d) as [Ha | Hr].
  - rewrite gpio_irq_handler_accept by (rewrite Hs; assumption).
    simpl snd. rewrite accepted_raise. tauto.
  - rewrite gpio_irq_handler_reject by (rewrite Hs; assumption).
    unfold accepted. simpl. split; [discriminate | lia].
Qed.

Lemma debounce_spans_clock_wrap_witness :
  accepted Saida
    (trace (gpio_irq_handler (pin Saida) 150)
       (set_last_debounce_time Saida (2 ^ 32 - 100) (sys boot))) = 1%nat.
Proof.
  assert (Hd : 0 <= 250 < 2 ^ 32)
    by (vm_compute; split; [discriminate | reflexivity]).
  apply (proj2 (debounce_spans_clock_wrap Saida
                  (set_last_debounce_time Saida (2 ^ 32 - 100) (sys boot)) 250 Hd)).
  vm_compute. reflexivity.
Defined.

(** *** Every step of the scheduler, by cases *)

Lemma step_saida_served (k : Kernel) :
  consistent (sys k) -> pending hSaidaSem (sys k) ->
  step RunSaida k =
    mkKernel
      (with_count (Z.max 0 (g_num_usuarios_ativos (sys k) - 1))
         (set_sem hSaidaSem (mkSemaphore 0 1) (sys k)))
      (reset_wake k)
      (log k ++ feedback_calls (Z.max 0 (g_num_usuarios_ativos (sys k) - 1))).
Proof.
  intros Hc Hp. destruct k as [st w lg]. simpl in *.
  rewrite vTaskSaida_run by assumption. reflexivity.
Qed.

(** What a step does to the shared state and to the log: nothing; or an
    accepted edge raises its channel; or a task serves its pending signal. *)
Lemma step_cases (l : Label) (k : Kernel) :
  consistent (sys k) ->
  (sys (step l k) = sys k /\ log (step l k) = log k) \/
  (exists src now,
     l = IRQ (pin src) now /\
     sys (step l k) = raise src now (sys k) /\
     log (step l k) = log k ++ [GiveFromISR (channel src)]) \/
  (exists src,
     consumes src l = true /\
     pending (channel src) (sys k) /\
     sys (step l k) =
       with_count (counter_op (g_num_usuarios_ativos (sys k)) src)
         (set_sem (channel src) (mkSemaphore 0 1) (sys k)) /\
     log (step l k) =
       log k ++
       match src with
       | Entrada =>
           (if g_num_usuarios_ativos (sys k) =? MAX_USUARIOS
            then rejection_tone else []) ++
           feedback_calls (counter_op (g_num_usuarios_ativos (sys k)) Entrada)
       | Saida =>
           feedback_calls (counter_op (g_num_usuarios_ativos (sys k)) Saida)
       | Reset => confirmation_tone ++ feedback_calls 0 ++ [TaskDelayMs 500]
       end).
Proof.
  intros Hc. pose proof Hc as [Hl Hb Hg Hm Hr He Hs].
  destruct l as [gpio now | | | now].
  - destruct (gpio_irq_handler_cases gpio now (sys k)) as [E | (src & -> & Ha & E)].
    + left. rewrite step_irq_rejected by assumption. auto.
    + right; left. exists src, now.
      rewrite step_irq_accepted by assumption. auto.
  - destruct (binary_cases _ He) as [P | P].
    + right; right. exists Entrada.
      rewrite step_entrada_served by assumption. auto.
    + left. rewrite step_entrada_blocked by assumption. auto.
  - destruct (binary_cases _ Hs) as [P | P].
    + right; right. exists Saida.
      rewrite step_saida_served by assumption. auto.
    + left. destruct k as [st w lg]. simpl in *.
      rewrite vTaskSaida_blocked by assumption. simpl.
      rewrite app_nil_r. auto.
  - destruct (Z_lt_le_dec now (reset_wake k)) as [Hd | Hd].
    + left. rewrite step_reset_delayed by assumption. auto.
    + destruct (binary_cases _ Hr) as [P | P].
      * right; right. exists Reset.
        rewrite step_reset_served by assumption. auto.
      * left. destruct k as [st w lg]. simpl in *.
        replace (now <? w) with false by (symmetry; apply Z.ltb_ge; assumption).
        rewrite vTaskReset_blocked by assumption. simpl.
        rewrite app_nil_r. auto.
Qed.

Lemma counter_op_bound (c : Z) (src : Source) :
  0 <= c <= MAX_USUARIOS -> 0 <= counter_op c src <= MAX_USUARIOS.
Proof. unfold counter_op, MAX_USUARIOS. destruct src; lia. Qed.

Lemma served_sem_other (n : Z) (src other : Source) (st : System) :
  src <> other ->
  sem (channel other) (with_count n (set_sem (channel src) (mkSemaphore 0 1) st)) =
    sem (channel other) st.
Proof. destruct src, other; intros H; try contradiction; reflexivity. Qed.

Lemma served_last (n : Z) (src other : Source) (st : System) :
  last_debounce_time other
    (with_count n (set_sem (channel src) (mkSemaphore 0 1) st)) =
    last_debounce_time other st.
Proof. destruct src, other; reflexivity. Qed.

Lemma consumes_round (src other : Source) (l : Label) :
  consumes src l = true -> consumes other l = false -> src <> other.
Proof. intros H1 H2 ->. congruence. Qed.

Lemma Source_eq_dec (a b : Source) : {a = b} + {a <> b}.
Proof. decide equality. Defined.

Lemma step_consistent (l : Label) (k : Kernel) :
  consistent (sys k) -> consistent (sys (step l k)).
Proof.
  intros Hc.
  destruct (step_cases l k Hc)
    as [[E _] | [(s & now & _ & E & _) | (s & _ & _ & E & _)]]; rewrite E.
  - assumption.
  - apply consistent_raise. assumption.
  - apply consistent_with_count.
    + assumption.
    + apply counter_op_bound. destruct Hc as [Hl Hb Hg Hm Hr He Hs]. lia.
    + destruct s; auto.
Qed.

(** *** Signals are not lost *)

(** X4. A signal raised on a channel stays pending, whatever interrupts
    arrive and whatever rounds the other two tasks run, until the task of
    that channel runs. *)
Theorem pending_signal_is_kept (src : Source) (ls : list Label) (k : Kernel) :
  consistent (sys k) ->
  pending (channel src) (sys k) ->
  forallb (fun l => negb (consumes src l)) ls = true ->
  pending (channel src) (sys (run ls k)).
Proof.
  revert k. induction ls as [| l ls IH]; intros k Hc Hp Hls; [assumption |].
  simpl in Hls. apply andb_prop in Hls. destruct Hls as [Hl Hls].
  apply negb_true_iff in Hl.
  rewrite run_cons. apply IH; [apply step_consistent; assumption | | assumption].
  destruct (step_cases l k Hc)
      as [[E _] | [(s & now & _ & E & _) | (s & Hs & _ & E & _)]];
      unfold pending; rewrite E.
  - assumption.
  - destruct (Source_eq_dec s src) as [-> | Hne].
    + apply raise_pending. assumption.
    + rewrite (proj2 (raise_other s src now (sys k) Hne)). assumption.
  - rewrite served_sem_other; [assumption |].
    apply (consumes_round s src l); assumption.
Qed.

Lemma pending_signal_is_kept_witness :
  pending (channel Entrada)
    (sys (run [IRQ BOTAO_SAIDA 400; RunSaida; IRQ BOTAO_RESET 500; RunReset 500;
               IRQ BOTAO_ENTRADA 900; RunSaida; RunReset 2000]
            (step (IRQ BOTAO_ENTRADA 300) boot))).
Proof.
  apply (pending_signal_is_kept Entrada).
  - apply step_consistent, boot_ok.
  - reflexivity.
  - reflexivity.
Defined.

(** X5. A round of a task never changes a debounce timestamp, and never
    changes the channel of another task: timestamps belong to the handler,
    and each channel is consumed by its own task only. *)
Theorem rounds_touch_their_channel_only (l : Label) (k : Kernel) :
  consistent (sys k) ->
  (forall gpio now, l <> IRQ gpio now) ->
  forall src,
    last_debounce_time src (sys (step l k)) = last_debounce_time src (sys k) /\
    (consumes src l = false ->
       sem (channel src) (sys (step l k)) = sem (channel src) (sys k)).
Proof.
  intros Hc Hl src.
  destruct (step_cases l k Hc)
    as [[E _] | [(s & now & El & _) | (s & Hs & _ & E & _)]].
  - rewrite E. auto.
  - exfalso. apply (Hl _ _ El).
  - rewrite E. split; [apply served_last |].
    intros Hn. apply served_sem_other. apply (consumes_round s src l); assumption.
Qed.

Lemma rounds_touch_their_channel_only_witness :
  last_debounce_time Entrada (sys (step RunEntrada (entry_requested 3))) = 9000 /\
  pending (channel Reset)
    (sys (step RunEntrada (step (IRQ BOTAO_ENTRADA 2300) reset_requested))).
Proof.
  assert (Hround : forall gpio now : Z, RunEntrada <> IRQ gpio now)
    by discriminate.
  assert (H3 : consistent (sys (entry_requested 3)))
    by apply step_consistent, consistent_run.
  assert (H5 : consistent (sys (step (IRQ BOTAO_ENTRADA 2300) reset_requested)))
    by apply step_consistent, step_consistent, consistent_run.
  split.
  - rewrite (proj1 (rounds_touch_their_channel_only RunEntrada
                      (entry_requested 3) H3 Hround Entrada)).
    reflexivity.
  - unfold pending.
    rewrite (proj2 (rounds_touch_their_channel_only RunEntrada
                      (step (IRQ BOTAO_ENTRADA 2300) reset_requested)
                      H5 Hround Reset) eq_refl).
    reflexivity.
Defined.

(** *** Entries and exits undo each other *)

Lemma served_pending_other (n : Z) (src other : Source) (st : System) :
  src <> other -> pending (channel other) st ->
  pending (channel other)
    (with_count n (set_sem (channel src) (mkSemaphore 0 1) st)).
Proof.
  intros Hne Hp. unfold pending. rewrite served_sem_other; assumption.
Qed.

(** X6. Below the maximum, a served entry followed by a served exit brings
    the count back to where it was, and above zero so does an exit followed
    by an entry.  At the bounds the refused operation is not made up for: at
    [MAX_USUARIOS] an entry then an exit leaves [MAX_USUARIOS - 1], and at 0
    an exit then an entry leaves 1. *)
Theorem entry_and_exit_cancel (st : System) :
  consistent st -> pending hEntradaSem st -> pending hSaidaSem st ->
  (value snapshot st < MAX_USUARIOS ->
     value snapshot (exec vTaskSaida (exec vTaskEntrada st)) = value snapshot st) /\
  (value snapshot st = MAX_USUARIOS ->
     value snapshot (exec vTaskSaida (exec vTaskEntrada st)) = MAX_USUARIOS - 1) /\
  (0 < value snapshot st ->
     value snapshot (exec vTaskEntrada (exec vTaskSaida st)) = value snapshot st) /\
  (value snapshot st = 0 ->
     value snapshot (exec vTaskEntrada (exec vTaskSaida st)) = 1).
Proof.
  intros Hc He Hs. pose proof Hc as [Hl Hb Hg Hm _ _ _].
  assert (Hes : value snapshot (exec vTaskSaida (exec vTaskEntrada st)) =
                Z.max 0 (Z.min (g_num_usuarios_ativos st + 1) MAX_USUARIOS - 1)).
  { unfold value, exec, snapshot, read. simpl fst.
    rewrite vTaskEntrada_run by assumption. simpl snd.
    rewrite vTaskSaida_run.
    - reflexivity.
    - apply (consistent_with_count _ hEntradaSem); auto. lia.
    - apply (served_pending_other _ Entrada Saida); [discriminate | assumption]. }
  assert (Hse : value snapshot (exec vTaskEntrada (exec vTaskSaida st)) =
                Z.min (Z.max 0 (g_num_usuarios_ativos st - 1) + 1) MAX_USUARIOS).
  { unfold value, exec, snapshot, read. simpl fst.
    rewrite vTaskSaida_run by assumption. simpl snd.
    rewrite vTaskEntrada_run.
    - reflexivity.
    - apply (consistent_with_count _ hSaidaSem); auto. lia.
    - apply (served_pending_other _ Saida Entrada); [discriminate | assumption]. }
  rewrite Hes, Hse. unfold value, snapshot, read. simpl fst.
  unfold MAX_USUARIOS in *. repeat split; intros; lia.
Qed.

Lemma entry_and_exit_cancel_witness :
  value snapshot
    (exec vTaskSaida
       (exec vTaskEntrada
          (sys (run [IRQ BOTAO_ENTRADA 2000; IRQ BOTAO_SAIDA 2000] three_inside)))) = 3.
Proof.
  refine (eq_trans
            (proj1 (entry_and_exit_cancel
                      (sys (run [IRQ BOTAO_ENTRADA 2000; IRQ BOTAO_SAIDA 2000]
                              three_inside)) _ _ _) _) _).
  - apply step_consistent, step_consistent, consistent_run.
  - reflexivity.
  - reflexivity.
  - vm_compute. reflexivity.
  - reflexivity.
Defined.

(** *** Entries at capacity *)

(** X7. At [MAX_USUARIOS] refusal repeats without end: every further entry
    signal that passes the filter and is served leaves the count at
    [MAX_USUARIOS] and adds exactly one tone. *)
Theorem refusal_repeats_at_capacity (ts : list Z) (k : Kernel) :
  consistent (sys k) ->
  value snapshot (sys k) = MAX_USUARIOS ->
  spaced (last_debounce_time_entrada (sys k)) ts ->
  value snapshot (sys (run (entry_signals ts) k)) = MAX_USUARIOS /\
  tones (log (run (entry_signals ts) k)) = (tones (log k) + List.length ts)%nat.
Proof.
  unfold value, snapshot, read. simpl fst.
  revert k. induction ts as [| t ts IH]; intros k Hc Hfull Hs.
  - simpl. split; [assumption | lia].
  - destruct Hs as [Ht Hs].
    change (entry_signals (t :: ts))
      with ([IRQ (pin Entrada) t; RunEntrada] ++ entry_signals ts).
    rewrite run_app.
    change (run [IRQ (pin Entrada) t; RunEntrada] k)
      with (step RunEntrada (step (IRQ (pin Entrada) t) k)).
    rewrite (step_irq_accepted Entrada t k) by assumption.
    pose proof (consistent_raise Entrada t (sys k) Hc) as Hc1.
    pose proof (raise_pending Entrada t (sys k) Hc) as Hp1.
    rewrite step_entrada_served by assumption.
    cbn [sys log reset_wake]. rewrite raise_g, Hfull.
    match goal with |- context [run _ ?k1] => set (k' := k1) end.
    destruct (IH k') as [Hg' Ht'].
    + apply (consistent_with_count _ hEntradaSem (raise Entrada t (sys k))); auto.
      unfold MAX_USUARIOS. lia.
    + reflexivity.
    + exact Hs.
    + split; [exact Hg' |]. rewrite Ht'. unfold k'. cbn [log].
      rewrite Z.eqb_refl, !tones_app, tones_feedback.
      change (tones rejection_tone) with 1%nat.
      change (tones [GiveFromISR (channel Entrada)]) with 0%nat.
      rewrite length_cons. lia.
Qed.

Lemma refusal_repeats_at_capacity_witness :
  tones (log (step RunEntrada (entry_requested 9))) = 1%nat /\
  tones (log (run (entry_signals [9300; 9600; 9900])
                (step RunEntrada (entry_requested 9)))) = 4%nat.
Proof.
  split; [reflexivity |].
  refine (eq_trans
            (proj2 (refusal_repeats_at_capacity [9300; 9600; 9900]
                      (step RunEntrada (entry_requested 9)) _ _ _)) _).
  - apply step_consistent, step_consistent, consistent_run.
  - reflexivity.
  - vm_compute. repeat split.
  - reflexivity.
Defined.

(** *** The three tasks as one bounded counter *)

Lemma with_count_g (n : Z) (st : System) :
  g_num_usuarios_ativos (with_count n st) = n.
Proof. reflexivity. Qed.

Lemma served_sem_self (n : Z) (src : Source) (st : System) :
  empty (channel src) (with_count n (set_sem (channel src) (mkSemaphore 0 1) st)).
Proof. destruct src; reflexivity. Qed.

Lemma step_round_served (src : Source) (now : Z) (k : Kernel) :
  consistent (sys k) -> pending (channel src) (sys k) -> reset_wake k <= now ->
  sys (step (round src now) k) =
    with_count (counter_op (g_num_usuarios_ativos (sys k)) src)
      (set_sem (channel src) (mkSemaphore 0 1) (sys k)) /\
  reset_wake (step (round src now) k) <= now + 750.
Proof.
  intros Hc Hp Hw. destruct src; simpl round.
  - rewrite step_entrada_served by assumption. simpl. split; [reflexivity | lia].
  - rewrite step_saida_served by assumption. simpl. split; [reflexivity | lia].
  - rewrite step_reset_served by assumption. simpl. split; [reflexivity | lia].
Qed.

Lemma press_served (p : Source * Z) (T : Z) (k : Kernel) :
  consistent (sys k) ->
  (forall src, empty (channel src) (sys k)) ->
  (forall src, 0 <= last_debounce_time src (sys k) <= T) ->
  reset_wake k <= T + 750 ->
  T + 750 < snd p < 2 ^ 32 ->
  consistent (sys (run (press p) k)) /\
  (forall src, empty (channel src) (sys (run (press p) k))) /\
  (forall src, 0 <= last_debounce_time src (sys (run (press p) k)) <= snd p) /\
  reset_wake (run (press p) k) <= snd p + 750 /\
  g_num_usuarios_ativos (sys (run (press p) k)) =
    counter_op (g_num_usuarios_ativos (sys k)) (fst p).
Proof.
  destruct p as [src t]. simpl fst. simpl snd. intros Hc He Hlast Hw Ht.
  change (run (press (src, t)) k)
    with (step (round src t) (step (IRQ (pin src) t) k)).
  assert (Ha : DEBOUNCE_DELAY_MS < sub32 t (last_debounce_time src (sys k))).
  { specialize (Hlast src). rewrite sub32_small by lia.
    unfold DEBOUNCE_DELAY_MS. lia. }
  rewrite (step_irq_accepted src t k Ha).
  set (k1 := mkKernel (raise src t (sys k)) (reset_wake k)
               (log k ++ [GiveFromISR (channel src)])).
  assert (Hc1 : consistent (sys k1)) by (apply consistent_raise; assumption).
  assert (Hp1 : pending (channel src) (sys k1))
    by (apply raise_pending; assumption).
  assert (Hw1 : reset_wake k1 <= t) by (simpl; lia).
  destruct (step_round_served src t k1 Hc1 Hp1 Hw1) as [E Hw'].
  rewrite E. simpl sys.
  split; [| split; [| split; [| split]]].
  - apply consistent_with_count.
    + assumption.
    + apply counter_op_bound. rewrite raise_g.
      destruct Hc as [Hl Hb Hg Hm Hr Hen Hs]. lia.
    + destruct src; auto.
  - intros other. destruct (Source_eq_dec src other) as [<- | Hne].
    + apply served_sem_self.
    + unfold empty. rewrite served_sem_other by assumption.
      rewrite (proj2 (raise_other src other t (sys k) Hne)). apply He.
  - intros other. rewrite served_last.
    destruct (Source_eq_dec src other) as [<- | Hne].
    + rewrite raise_last. pose proof (Hlast src). lia.
    + rewrite (proj1 (raise_other src other t (sys k) Hne)).
      specialize (Hlast other). lia.
  - assumption.
  - rewrite with_count_g, raise_g. reflexivity.
Qed.

Lemma presses_served (ps : list (Source * Z)) (T : Z) (k : Kernel) :
  consistent (sys k) ->
  (forall src, empty (channel src) (sys k)) ->
  (forall src, 0 <= last_debounce_time src (sys k) <= T) ->
  reset_wake k <= T + 750 ->
  well_spaced T ps ->
  g_num_usuarios_ativos (sys (run (presses ps) k)) =
    fold_left counter_op (map fst ps) (g_num_usuarios_ativos (sys k)).
Proof.
  revert T k. induction ps as [| p ps IH]; intros T k Hc He Hlast Hw Hps.
  - reflexivity.
  - destruct Hps as [Hp Hps].
    change (presses (p :: ps)) with (press p ++ presses ps).
    rewrite run_app.
    destruct (press_served p T k Hc He Hlast Hw Hp) as (Hc' & He' & Hl' & Hw' & Hg').
    rewrite (IH (snd p)) by assumption.
    rewrite Hg'. reflexivity.
Qed.

(** X8. After start-up, for presses of the three buttons in any order and
    number, each more than 750 ms after the one before and each served by its
    task, the count is what a bounded counter gives: an entry adds one up to
    [MAX_USUARIOS], an exit removes one down to 0, a reset sets 0. *)
Theorem presses_follow_the_counter (ps : list (Source * Z)) :
  well_spaced 0 ps ->
  value snapshot (sys (run (presses ps) boot)) =
    fold_left counter_op (map fst ps) 0.
Proof.
  intros Hps. unfold value, snapshot, read. simpl fst.
  rewrite (presses_served ps 0 boot).
  - reflexivity.
  - apply boot_ok.
  - intros src. destruct src; reflexivity.
  - intros src. destruct src; simpl; lia.
  - simpl. lia.
  - assumption.
Qed.

Lemma presses_follow_the_counter_witness :
  value snapshot
    (sys (run (presses [(Saida, 1000); (Entrada, 2000); (Entrada, 3000);
                        (Reset, 4000); (Entrada, 5000); (Saida, 6000);
                        (Saida, 7000); (Entrada, 8000)]) boot)) = 1.
Proof.
  refine (eq_trans (presses_follow_the_counter _ _) _).
  - vm_compute. repeat split.
  - reflexivity.
Defined.

(** *** The text buffer *)

Lemma users_line_lengths :
  forallb
    (fun i =>
       forallb
         (fun j =>
            (String.length (users_line (Z.of_nat i) (Z.of_nat j)) <=? 14)%nat)
         (seq 0 256))
    (seq 0 256) = true.
Proof. vm_compute. reflexivity. Qed.

(** X12. For any two one-byte operands the count line has at most 14
    characters, so with its terminator it fits the 32-byte buffer that
    [snprintf] is given and is never cut short. *)
Theorem users_line_fits_buffer (n max : Z) :
  0 <= n < 256 -> 0 <= max < 256 ->
  (String.length (users_line n max) <= 14)%nat /\
  (String.length (users_line n max) + 1 <= 32)%nat.
Proof.
  intros Hn Hmax.
  assert (Hin_n : In (Z.to_nat n) (seq 0 256)) by (apply in_seq; lia).
  assert (Hin_m : In (Z.to_nat max) (seq 0 256)) by (apply in_seq; lia).
  pose proof (proj1 (forallb_forall _ _) users_line_lengths _ Hin_n) as H1.
  cbv beta in H1.
  pose proof (proj1 (forallb_forall _ _) H1 _ Hin_m) as H2.
  cbv beta in H2. rewrite !Z2Nat.id in H2 by lia.
  apply Nat.leb_le in H2. split; lia.
Qed.

Lemma users_line_fits_buffer_witness :
  (String.length (users_line 255 255) <= 14)%nat.
Proof.
  apply (users_line_fits_buffer 255 255); vm_compute; split; (discriminate || reflexivity).
Defined.

(** ** Preempted rounds *)

(** *** Programs run without interruption *)

Lemma complete_read {A : Type} (f : System -> A) (k : A -> Prog) (st : System) :
  complete (Atom (read f) k) st = complete (k (f st)) st.
Proof. simpl. destruct (complete (k (f st)) st) as [[st2 t2] b]. reflexivity. Qed.

Lemma complete_write (f : System -> System) (k : unit -> Prog) (st : System) :
  complete (Atom (write f) k) st = complete (k tt) (f st).
Proof. simpl. destruct (complete (k tt) (f st)) as [[st2 t2] b]. reflexivity. Qed.

Lemma complete_call (c : Call) (k : unit -> Prog) (st : System) :
  complete (Atom (call c) k) st = prepend [c] (complete (k tt) st).
Proof. reflexivity. Qed.

Lemma complete_semGive (h : Handle) (k : Z -> Prog) (st : System) :
  complete (Atom (semGive h) k) st =
    complete (k (fst (xSemaphoreGive (sem h st))))
      (set_sem h (snd (xSemaphoreGive (sem h st))) st).
Proof.
  simpl. unfold semGive. destruct (xSemaphoreGive (sem h st)) as [r s]. simpl.
  destruct (complete (k r) (set_sem h s st)) as [[st2 t2] b]. reflexivity.
Qed.

Lemma complete_semTake (h : Handle) (k : Z -> Prog) (st : System) :
  complete (Atom (semTake h) k) st =
    complete (k (fst (xSemaphoreTake (sem h st))))
      (set_sem h (snd (xSemaphoreTake (sem h st))) st).
Proof.
  simpl. unfold semTake. destruct (xSemaphoreTake (sem h st)) as [r s]. simpl.
  destruct (complete (k r) (set_sem h s st)) as [[st2 t2] b]. reflexivity.
Qed.

Lemma complete_semGetCount (h : Handle) (k : Z -> Prog) (st : System) :
  complete (Atom (semGetCount h) k) st =
    complete (k (uxSemaphoreGetCount (sem h st))) st.
Proof. unfold semGetCount. rewrite complete_read. reflexivity. Qed.

Lemma complete_wait (h : Handle) (k : Prog) (st : System) :
  0 < uxMessagesWaiting (sem h st) ->
  complete (Wait h k) st =
    complete k
      (set_sem h (mkSemaphore (uxMessagesWaiting (sem h st) - 1)
                    (uxLength (sem h st))) st).
Proof.
  intros H. simpl. unfold xSemaphoreTake.
  replace (0 <? uxMessagesWaiting (sem h st)) with true
    by (symmetry; apply Z.ltb_lt; assumption).
  reflexivity.
Qed.

Lemma prepend_prepend (t1 t2 : list Call) (r : System * list Call * bool) :
  prepend t1 (prepend t2 r) = prepend (t1 ++ t2) r.
Proof. destruct r as [[st t] b]. simpl. rewrite app_assoc. reflexivity. Qed.

Lemma complete_set_rgb_color (r g b : Z) (k : Prog) (st : System) :
  complete (set_rgb_color_p r g b k) st =
    prepend [PwmSetGpioLevel LED_R_GPIO r; PwmSetGpioLevel LED_G_GPIO g;
             PwmSetGpioLevel LED_B_GPIO b] (complete k st).
Proof.
  unfold set_rgb_color_p. rewrite !complete_call, !prepend_prepend. reflexivity.
Qed.

Lemma complete_led_rgb (k : Prog) (st : System) :
  0 <= g_num_usuarios_ativos st ->
  complete (atualizar_feedback_led_rgb_p k) st =
    prepend (led_calls (spec_color (g_num_usuarios_ativos st))) (complete k st).
Proof.
  intros Hn. unfold atualizar_feedback_led_rgb_p, led_rgb_last_p, spec_color.
  rewrite complete_read.
  destruct (g_num_usuarios_ativos st =? 0) eqn:E0;
    [apply complete_set_rgb_color |].
  apply Z.eqb_neq in E0. rewrite complete_read.
  replace (0 <? g_num_usuarios_ativos st) with true
    by (symmetry; apply Z.ltb_lt; lia).
  rewrite complete_read.
  destruct (g_num_usuarios_ativos st <=? MAX_USUARIOS - 2);
    [apply complete_set_rgb_color |].
  rewrite complete_read.
  destruct (g_num_usuarios_ativos st =? MAX_USUARIOS - 1);
    apply complete_set_rgb_color.
Qed.

Lemma complete_display (k : Prog) (st : System) :
  xDisplayMutex st = xSemaphoreCreateMutex ->
  complete (atualizar_feedback_display_p k) st =
    prepend (display_calls (g_num_usuarios_ativos st)
               (spec_status (g_num_usuarios_ativos st))) (complete k st).
Proof.
  intros Hm. destruct st as [mx us rs es ss g le ls lr]. simpl in Hm. subst mx.
  unfold atualizar_feedback_display_p, display_send_p, spec_status, display_calls.
  rewrite complete_wait by (simpl; lia). simpl set_sem.
  rewrite complete_call, complete_read, complete_call, complete_read.
  cbn [g_num_usuarios_ativos].
  destruct (g =? 0).
  - rewrite !complete_call, complete_semGive, !prepend_prepend. reflexivity.
  - rewrite complete_read. cbn [g_num_usuarios_ativos].
    destruct (g <? MAX_USUARIOS);
      rewrite !complete_call, complete_semGive, !prepend_prepend; reflexivity.
Qed.

Lemma complete_feedback (k : Prog) (st : System) :
  0 <= g_num_usuarios_ativos st ->
  xDisplayMutex st = xSemaphoreCreateMutex ->
  complete (atualizar_feedback_led_rgb_p (atualizar_feedback_display_p k)) st =
    prepend (feedback_calls (g_num_usuarios_ativos st)) (complete k st).
Proof.
  intros Hn Hm. rewrite complete_led_rgb, complete_display by assumption.
  apply prepend_prepend.
Qed.

Lemma complete_refresh (st : System) :
  0 <= g_num_usuarios_ativos st ->
  xDisplayMutex st = xSemaphoreCreateMutex ->
  complete refresh_p st = (st, feedback_calls (g_num_usuarios_ativos st), true).
Proof.
  intros Hn Hm. unfold refresh_p. rewrite complete_feedback by assumption.
  simpl. rewrite app_nil_r. reflexivity.
Qed.

(** The decision about the tone, in whatever state the task finds. *)
Lemma complete_entrada_decide (result : Z) (st : System) :
  0 <= g_num_usuarios_ativos st ->
  xDisplayMutex st = xSemaphoreCreateMutex ->
  complete (entrada_decide_p result) st =
    (st,
     (if (result =? pdFAIL) && (g_num_usuarios_ativos st =? MAX_USUARIOS)
      then rejection_tone else [])
       ++ feedback_calls (g_num_usuarios_ativos st),
     true).
Proof.
  intros Hn Hm. unfold entrada_decide_p.
  destruct (result =? pdFAIL); simpl andb.
  - rewrite complete_read.
    destruct (g_num_usuarios_ativos st =? MAX_USUARIOS).
    + rewrite !complete_call, complete_refresh by assumption. reflexivity.
    + apply complete_refresh; assumption.
  - apply complete_refresh; assumption.
Qed.

(** A round that nothing comes between is the round of the run-to-completion
    scheduler. *)
Lemma complete_vTaskEntrada (st : System) :
  consistent st -> pending hEntradaSem st ->
  complete vTaskEntrada_p st = (exec vTaskEntrada st, trace vTaskEntrada st, true).
Proof.
  intros Hc Hp. unfold exec, trace. rewrite vTaskEntrada_run by assumption.
  destruct Hc as [Hl Hb Hg Hm _ _ _].
  destruct st as [mx [c len] rs es ss g le ls lr].
  unfold pending in Hp. simpl in Hl, Hb, Hg, Hm, Hp. subst.
  unfold vTaskEntrada_p, entrada_read_back_p.
  rewrite complete_wait by (simpl; lia). simpl set_sem.
  rewrite complete_read, complete_semGive. simpl sem.
  unfold xSemaphoreGive. simpl uxMessagesWaiting. simpl uxLength.
  unfold MAX_USUARIOS in *.
  destruct (c <? 9) eqn:E; simpl fst; simpl snd;
    rewrite complete_semGetCount, complete_write; simpl set_sem;
    unfold uxSemaphoreGetCount; simpl sem; simpl uxMessagesWaiting.
  - apply Z.ltb_lt in E. rewrite uint8_small by lia.
    rewrite complete_entrada_decide by (simpl; (lia || reflexivity)).
    simpl. replace (c =? 9) with false by (symmetry; apply Z.eqb_neq; lia).
    replace (Z.min (c + 1) 9) with (c + 1) by lia. reflexivity.
  - apply Z.ltb_ge in E. assert (c = 9) by lia. subst c.
    rewrite uint8_small by lia.
    rewrite complete_entrada_decide by (simpl; (lia || reflexivity)).
    reflexivity.
Qed.

Lemma complete_vTaskSaida (st : System) :
  consistent st -> pending hSaidaSem st ->
  complete vTaskSaida_p st = (exec vTaskSaida st, trace vTaskSaida st, true).
Proof.
  intros Hc Hp. unfold exec, trace. rewrite vTaskSaida_run by assumption.
  destruct Hc as [Hl Hb Hg Hm _ _ _].
  destruct st as [mx [c len] rs es ss g le ls lr].
  unfold pending in Hp. simpl in Hl, Hb, Hg, Hm, Hp. subst.
  unfold vTaskSaida_p.
  rewrite complete_wait by (simpl; lia). simpl set_sem.
  rewrite complete_semTake. simpl sem.
  unfold xSemaphoreTake. simpl uxMessagesWaiting. simpl uxLength.
  unfold MAX_USUARIOS in *.
  destruct (0 <? c) eqn:E; simpl fst; simpl snd;
    rewrite complete_semGetCount, complete_write; simpl set_sem;
    unfold uxSemaphoreGetCount; simpl sem; simpl uxMessagesWaiting.
  - apply Z.ltb_lt in E. rewrite uint8_small by lia.
    rewrite complete_refresh by (simpl; (lia || reflexivity)).
    simpl. replace (Z.max 0 (c - 1)) with (c - 1) by lia. reflexivity.
  - apply Z.ltb_ge in E. assert (c = 0) by lia. subst c.
    rewrite uint8_small by lia.
    rewrite complete_refresh by (simpl; (lia || reflexivity)).
    reflexivity.
Qed.

Lemma complete_vTaskReset (st : System) :
  consistent st -> pending hResetSem st ->
  complete vTaskReset_p st = (exec vTaskReset st, trace vTaskReset st, true).
Proof.
  intros Hc Hp. unfold exec, trace.
  destruct Hc as [Hl Hb Hg Hm _ _ _].
  rewrite vTaskReset_run by (assumption || lia).
  destruct st as [mx [c len] rs es ss g le ls lr].
  unfold pending in Hp. simpl in Hl, Hb, Hg, Hm, Hp. subst.
  unfold vTaskReset_p.
  rewrite complete_wait by (simpl; lia). simpl set_sem.
  rewrite !complete_write.
  rewrite drain_usuarios_run by (simpl; lia). simpl set_sem.
  rewrite !complete_call.
  rewrite complete_feedback by (simpl; (lia || reflexivity)).
  rewrite complete_call. reflexivity.
Qed.

(** *** Uninterrupted runs are runs of the preemptive scheduler *)

Lemma fstep_moved (src : Source) (k : Fine) :
  fstep (FStep src) k =
    moved src (fst (fst (advance (resume src (at_task src k)) (fsys k))))
      (snd (fst (advance (resume src (at_task src k)) (fsys k))))
      (flog k ++ snd (advance (resume src (at_task src k)) (fsys k))) k.
Proof.
  unfold fstep.
  destruct (advance (resume src (at_task src k)) (fsys k)) as [[p st] t].
  destruct src; reflexivity.
Qed.

Lemma moved_moved (src : Source) (p q : Prog) (st st' : System)
    (lg lg' : list Call) (k : Fine) :
  moved src p st lg (moved src q st' lg' k) = moved src p st lg k.
Proof. destruct src; reflexivity. Qed.

Lemma moved_at (src : Source) (p : Prog) (st : System) (lg : list Call) (k : Fine) :
  at_task src (moved src p st lg k) = p /\
  fsys (moved src p st lg k) = st /\
  flog (moved src p st lg k) = lg.
Proof. destruct src; repeat split. Qed.

Lemma frun_steps_S (src : Source) (n : nat) (k : Fine) :
  frun (steps src (S n)) k = frun (steps src n) (fstep (FStep src) k).
Proof. reflexivity. Qed.

Lemma frun_program (src : Source) (p : Prog) :
  forall k st' t,
    at_task src k = p ->
    complete p (fsys k) = (st', t, true) ->
    frun (steps src (length_of p (fsys k))) k = moved src Stop st' (flog k ++ t) k.
Proof.
  induction p as [| A m kk IH | h kk IH]; intros k st' t Hat Hcomp.
  - simpl in Hcomp. injection Hcomp as <- <-. simpl. rewrite app_nil_r.
    destruct k as [st pe ps pr lg]. destruct src; simpl in Hat; subst; reflexivity.
  - simpl in Hcomp. simpl length_of.
    destruct (m (fsys k)) as [[a st1] t1] eqn:Em.
    destruct (complete (kk a) st1) as [[st2 t2] b] eqn:Ec.
    injection Hcomp as <- <- ->.
    rewrite frun_steps_S, fstep_moved, Hat. simpl resume. simpl advance.
    rewrite Em. simpl fst. simpl snd.
    destruct (moved_at src (kk a) st1 (flog k ++ t1) k) as (H1 & H2 & H3).
    pose proof (IH a (moved src (kk a) st1 (flog k ++ t1) k) st2 t2 H1) as IHa.
    rewrite H2, H3 in IHa. rewrite (IHa Ec).
    rewrite moved_moved, app_assoc. reflexivity.
  - simpl in Hcomp. simpl length_of.
    destruct (xSemaphoreTake (sem h (fsys k))) as [r s] eqn:Et.
    destruct (r =? pdTRUE) eqn:Er; [| discriminate Hcomp].
    rewrite frun_steps_S, fstep_moved, Hat. simpl resume. simpl advance.
    rewrite Et, Er. simpl fst. simpl snd. rewrite app_nil_r.
    destruct (moved_at src kk (set_sem h s (fsys k)) (flog k) k) as (H1 & H2 & H3).
    pose proof (IH (moved src kk (set_sem h s (fsys k)) (flog k) k) st' t H1) as IHk.
    rewrite H2, H3 in IHk. rewrite (IHk Hcomp).
    rewrite moved_moved. reflexivity.
Qed.

Lemma resume_task_prog (src : Source) :
  resume src (task_prog src) = task_prog src.
Proof. destruct src; reflexivity. Qed.

Lemma task_prog_waits (src : Source) :
  exists k, task_prog src = Wait (channel src) k.
Proof. destruct src; eexists; reflexivity. Qed.

(** A round of a task at the top of its loop, run step by step with nothing
    in between. *)
Lemma frun_round (src : Source) (k : Fine) (st' : System) (t : list Call) :
  at_task src k = Stop ->
  complete (task_prog src) (fsys k) = (st', t, true) ->
  frun (steps src (length_of (task_prog src) (fsys k))) k =
    moved src Stop st' (flog k ++ t) k.
Proof.
  intros Hat Hcomp.
  destruct (moved_at src (task_prog src) (fsys k) (flog k) k) as (H1 & H2 & H3).
  assert (Hfirst : fstep (FStep src) k =
                   fstep (FStep src) (moved src (task_prog src) (fsys k) (flog k) k)).
  { rewrite !fstep_moved. rewrite H1, H2, H3, Hat.
    change (resume src Stop) with (task_prog src).
    rewrite resume_task_prog, moved_moved. reflexivity. }
  pose proof (frun_program src (task_prog src)
                (moved src (task_prog src) (fsys k) (flog k) k) st' t H1) as Hrun.
  rewrite H2, H3, moved_moved in Hrun. specialize (Hrun Hcomp).
  rewrite <- Hrun.
  destruct (length_of (task_prog src) (fsys k)) as [| n] eqn:En.
  - exfalso. destruct (task_prog_waits src) as [kk Ek]. rewrite Ek in En, Hcomp.
    simpl in En, Hcomp.
    destruct (xSemaphoreTake (sem (channel src) (fsys k))) as [r s].
    destruct (r =? pdTRUE); discriminate.
  - rewrite !frun_steps_S, Hfirst. reflexivity.
Qed.

(** *** The rejection tone under preemption *)




(** *** The bounds under preemption *)

Lemma binary_take (s : Semaphore) : binary s -> binary (snd (xSemaphoreTake s)).
Proof. intros [-> | ->]; simpl; right; reflexivity. Qed.

Lemma binary_give_binary (s : Semaphore) :
  binary s -> binary (snd (xSemaphoreGive s)).
Proof. intros [-> | ->]; simpl; left; reflexivity. Qed.

Lemma in_range_give (h : Handle) (st : System) :
  in_range st -> in_range (set_sem h (snd (xSemaphoreGive (sem h st))) st).
Proof.
  intros [Hl Hb Hg Hm Hr He Hs].
  destruct st as [mx [c len] rs es ss g le ls lr]. simpl in *. subst len.
  destruct h; simpl; constructor; simpl; auto using binary_give_binary.
  - unfold xSemaphoreGive. simpl. destruct (c <? MAX_USUARIOS); reflexivity.
  - unfold xSemaphoreGive. simpl.
    destruct (c <? MAX_USUARIOS) eqn:E; simpl; [apply Z.ltb_lt in E |]; lia.
Qed.

Lemma in_range_take (h : Handle) (st : System) :
  in_range st -> in_range (set_sem h (snd (xSemaphoreTake (sem h st))) st).
Proof.
  intros [Hl Hb Hg Hm Hr He Hs].
  destruct st as [mx [c len] rs es ss g le ls lr]. simpl in *. subst len.
  destruct h; simpl; constructor; simpl; auto using binary_take.
  - unfold xSemaphoreTake. simpl. destruct (0 <? c); reflexivity.
  - unfold xSemaphoreTake. simpl.
    destruct (0 <? c) eqn:E; simpl; [apply Z.ltb_lt in E |]; lia.
Qed.

Lemma in_range_set_g (n : Z) (st : System) :
  in_range st -> 0 <= n <= MAX_USUARIOS ->
  in_range (set_g_num_usuarios_ativos n st).
Proof.
  intros [Hl Hb Hg Hm Hr He Hs] Hn.
  destruct st as [mx us rs es ss g le ls lr]. constructor; simpl in *; auto.
Qed.

Lemma in_range_drain (st : System) : in_range st -> in_range (drain_usuarios st).
Proof.
  intros [Hl Hb Hg Hm Hr He Hs]. rewrite drain_usuarios_run by lia.
  destruct st as [mx us rs es ss g le ls lr]. constructor; simpl in *; auto.
  unfold MAX_USUARIOS. lia.
Qed.

Lemma in_range_raise (src : Source) (now : Z) (st : System) :
  in_range st -> in_range (raise src now st).
Proof.
  intros [Hl Hb Hg Hm Hr He Hs].
  destruct st as [mx us rs es ss g le ls lr]. simpl in *.
  unfold raise.
  destruct src; simpl; rewrite binary_give by assumption;
    constructor; simpl; auto; left; reflexivity.
Qed.

Lemma in_range_boot : in_range (sys boot).
Proof.
  constructor.
  - reflexivity.
  - vm_compute. split; discriminate.
  - vm_compute. split; discriminate.
  - left. reflexivity.
  - right. reflexivity.
  - right. reflexivity.
  - right. reflexivity.
Qed.

Lemma safe_call (c : Call) (k : unit -> Prog) :
  snapshot_in_range c -> safe (k tt) -> safe (Atom (call c) k).
Proof.
  intros Hc Hk st Hst. unfold exec, trace, value. simpl.
  split; [assumption |]. split; [| assumption].
  constructor; [assumption | constructor].
Qed.

Lemma safe_read_g (k : Z -> Prog) :
  (forall n, 0 <= n <= MAX_USUARIOS -> safe (k n)) ->
  safe (Atom (read g_num_usuarios_ativos) k).
Proof.
  intros Hk st Hst. unfold exec, trace, value. simpl.
  split; [assumption |]. split; [constructor |].
  apply Hk. apply Hst.
Qed.

Lemma safe_write (f : System -> System) (k : unit -> Prog) :
  (forall st, in_range st -> in_range (f st)) -> safe (k tt) ->
  safe (Atom (write f) k).
Proof.
  intros Hf Hk st Hst. unfold exec, trace, value. simpl.
  split; [apply Hf; assumption |]. split; [constructor | assumption].
Qed.

Lemma safe_semGive (h : Handle) (k : Z -> Prog) :
  (forall r, safe (k r)) -> safe (Atom (semGive h) k).
Proof.
  intros Hk st Hst. unfold exec, trace, value, semGive.
  pose proof (in_range_give h st Hst) as Hgive.
  destruct (xSemaphoreGive (sem h st)) as [r s]. simpl in *.
  split; [assumption |]. split; [constructor | apply Hk].
Qed.

Lemma safe_semTake (h : Handle) (k : Z -> Prog) :
  (forall r, safe (k r)) -> safe (Atom (semTake h) k).
Proof.
  intros Hk st Hst. unfold exec, trace, value, semTake.
  pose proof (in_range_take h st Hst) as Htake.
  destruct (xSemaphoreTake (sem h st)) as [r s]. simpl in *.
  split; [assumption |]. split; [constructor | apply Hk].
Qed.

Lemma safe_count (k : Z -> Prog) :
  (forall n, 0 <= n <= MAX_USUARIOS -> safe (k n)) ->
  safe (Atom (semGetCount hUsuariosSem) k).
Proof.
  intros Hk st Hst. unfold exec, trace, value, semGetCount, read. simpl.
  split; [assumption |]. split; [constructor |].
  apply Hk. apply Hst.
Qed.

Lemma safe_wait (h : Handle) (k : Prog) : safe k -> safe (Wait h k).
Proof. intros Hk. exact Hk. Qed.

Lemma safe_set_rgb_color (r g b : Z) (k : Prog) :
  safe k -> safe (set_rgb_color_p r g b k).
Proof.
  intros Hk. unfold set_rgb_color_p.
  repeat (apply safe_call; [exact I |]). assumption.
Qed.

Lemma safe_led_rgb (k : Prog) : safe k -> safe (atualizar_feedback_led_rgb_p k).
Proof.
  intros Hk. unfold atualizar_feedback_led_rgb_p, led_rgb_last_p.
  apply safe_read_g. intros n1 _.
  destruct (n1 =? 0); [apply safe_set_rgb_color; assumption |].
  apply safe_read_g. intros n2 _.
  destruct (0 <? n2).
  - apply safe_read_g. intros n3 _.
    destruct (n3 <=? MAX_USUARIOS - 2); [apply safe_set_rgb_color; assumption |].
    apply safe_read_g. intros n4 _.
    destruct (n4 =? MAX_USUARIOS - 1); apply safe_set_rgb_color; assumption.
  - apply safe_read_g. intros n4 _.
    destruct (n4 =? MAX_USUARIOS - 1); apply safe_set_rgb_color; assumption.
Qed.

Lemma safe_display (k : Prog) : safe k -> safe (atualizar_feedback_display_p k).
Proof.
  intros Hk. unfold atualizar_feedback_display_p, display_send_p.
  apply safe_wait.
  assert (Hsend : safe (Atom (call Ssd1306SendData)
                          (fun _ => Atom (semGive hDisplayMutex) (fun _ => k)))).
  { apply safe_call; [exact I |]. apply safe_semGive. intros _. assumption. }
  apply safe_call; [exact I |].
  apply safe_read_g. intros n Hn.
  apply safe_call; [exists n; auto |].
  apply safe_read_g. intros n1 _.
  destruct (n1 =? 0); [apply safe_call; [exact I | assumption] |].
  apply safe_read_g. intros n2 _.
  destruct (n2 <? MAX_USUARIOS); apply safe_call; (exact I || assumption).
Qed.

Lemma safe_refresh : safe refresh_p.
Proof. apply safe_led_rgb, safe_display. exact I. Qed.

Lemma safe_task (src : Source) : safe (task_prog src).
Proof.
  destruct src; simpl task_prog.
  - unfold vTaskEntrada_p, entrada_read_back_p, entrada_decide_p.
    apply safe_wait.
    apply safe_read_g. intros _ _.
    apply safe_semGive. intros result.
    apply safe_count. intros count Hcount.
    apply safe_write.
    { intros st Hst. apply in_range_set_g; [assumption |].
      unfold MAX_USUARIOS in *. rewrite uint8_small; lia. }
    destruct (result =? pdFAIL); [| apply safe_refresh].
    apply safe_read_g. intros n _.
    destruct (n =? MAX_USUARIOS); [| apply safe_refresh].
    repeat (apply safe_call; [exact I |]). apply safe_refresh.
  - unfold vTaskSaida_p. apply safe_wait.
    apply safe_semTake. intros _.
    apply safe_count. intros count Hcount.
    apply safe_write.
    { intros st Hst. apply in_range_set_g; [assumption |].
      unfold MAX_USUARIOS in *. rewrite uint8_small; lia. }
    apply safe_refresh.
  - unfold vTaskReset_p. apply safe_wait.
    apply safe_write.
    { intros st Hst. apply in_range_set_g; [assumption |].
      unfold MAX_USUARIOS. lia. }
    apply safe_write; [apply in_range_drain |].
    repeat (apply safe_call; [exact I |]).
    apply safe_led_rgb, safe_display.
    apply safe_call; exact I.
Qed.

Lemma safe_advance (p : Prog) (st : System) :
  safe p -> in_range st ->
  safe (fst (fst (advance p st))) /\
  in_range (snd (fst (advance p st))) /\
  Forall snapshot_in_range (snd (advance p st)).
Proof.
  intros Hp Hst. destruct p as [| A m k | h k]; simpl.
  - split; [exact I |]. split; [assumption | constructor].
  - destruct (Hp st Hst) as (H1 & H2 & H3).
    unfold exec, trace, value in *.
    destruct (m st) as [[a st1] t1]. simpl in *. auto.
  - pose proof (in_range_take h st Hst) as Htake.
    destruct (xSemaphoreTake (sem h st)) as [r s]. simpl in *.
    destruct (r =? pdTRUE); simpl;
      (split; [assumption |]; split; [assumption | constructor]).
Qed.

(** X14. Under the preemptive scheduler, whatever the order in which
    interrupts arrive and the three tasks take their steps (any task may be
    stopped between any two of its accesses to shared state while the others
    run), the global and the count of the counting semaphore stay between 0
    and [MAX_USUARIOS], each channel holds at most one token, and every count
    line drawn on the display shows a count in that range. *)
Theorem bounds_hold_under_preemption (ls : list FLabel) :
  0 <= value snapshot (fsys (frun ls fboot)) <= MAX_USUARIOS /\
  0 <= uxSemaphoreGetCount (xUsuariosSem (fsys (frun ls fboot))) <= MAX_USUARIOS /\
  (forall src,
     0 <= uxSemaphoreGetCount (sem (channel src) (fsys (frun ls fboot))) <= 1) /\
  Forall snapshot_in_range (flog (frun ls fboot)).
Proof.
  assert (Hinv : in_range (fsys (frun ls fboot)) /\
                 Forall snapshot_in_range (flog (frun ls fboot))).
  { assert (H0 : in_range (fsys fboot) /\
                 (forall src, safe (at_task src fboot)) /\
                 Forall snapshot_in_range (flog fboot)).
    { split; [apply in_range_boot |]. split; [intros []; exact I |].
      apply boot_ok. }
    revert H0. generalize fboot as k.
    induction ls as [| l ls IH]; intros k (Hr & Hs & Hl); [auto |].
    change (frun (l :: ls) k) with (frun ls (fstep l k)).
    apply IH. destruct l as [gpio now | src].
    - unfold fstep.
      destruct (gpio_irq_handler_cases gpio now (fsys k))
        as [E | (s & _ & _ & E)]; rewrite E; cbn [fsys flog].
      + split; [assumption |]. split.
        * intros src.
          destruct src; [exact (Hs Entrada) | exact (Hs Saida) | exact (Hs Reset)].
        * rewrite app_nil_r. assumption.
      + split; [apply in_range_raise; assumption |]. split.
        * intros src.
          destruct src; [exact (Hs Entrada) | exact (Hs Saida) | exact (Hs Reset)].
        * apply Forall_app. split; [assumption | repeat constructor].
    - rewrite fstep_moved.
      assert (Hp : safe (resume src (at_task src k))).
      { specialize (Hs src). destruct (at_task src k); simpl resume;
          [apply safe_task | assumption | assumption]. }
      destruct (safe_advance _ _ Hp Hr) as (H1 & H2 & H3).
      destruct (moved_at src
                  (fst (fst (advance (resume src (at_task src k)) (fsys k))))
                  (snd (fst (advance (resume src (at_task src k)) (fsys k))))
                  (flog k ++ snd (advance (resume src (at_task src k)) (fsys k))) k)
        as (E1 & E2 & E3).
      rewrite E2, E3. split; [assumption |]. split.
      + intros other. destruct (Source_eq_dec src other) as [<- | Hne].
        * rewrite E1. assumption.
        * specialize (Hs other).
          destruct src, other; try contradiction; exact Hs.
      + apply Forall_app. split; assumption. }
  destruct Hinv as [[Hl Hb Hg Hm Hr He Hs] Hlog].
  unfold value, snapshot, read, uxSemaphoreGetCount. simpl fst.
  repeat split; try assumption; try lia.
  all: destruct src; simpl;
    match goal with H : binary ?s |- context [?s] => destruct H as [-> | ->] end;
    simpl; lia.
Qed.

(** *** Rounds that nothing comes between *)

(** X15. For each of the three tasks, a round that starts with its signal
    pending in a consistent state and that no interrupt and no other task
    comes between, taken step by step under the preemptive scheduler, ends
    back at the top of the loop with exactly the state and the calls of the
    round of the run-to-completion scheduler, and moves no other task. *)
Theorem uninterrupted_round_is_the_round (src : Source) (k : Fine) :
  consistent (fsys k) ->
  pending (channel src) (fsys k) ->
  at_task src k = Stop ->
  frun (steps src (length_of (task_prog src) (fsys k))) k =
    moved src Stop (exec (task_round src) (fsys k))
      (flog k ++ trace (task_round src) (fsys k)) k.
Proof.
  intros Hc Hp Hat. apply frun_round; [assumption |].
  destruct src; simpl task_prog; simpl task_round.
  - apply complete_vTaskEntrada; assumption.
  - apply complete_vTaskSaida; assumption.
  - apply complete_vTaskReset; assumption.
Qed.

Lemma uninterrupted_round_is_the_round_witness :
  fsys (frun (steps Reset (length_of (task_prog Reset) (fsys (at_rest reset_requested))))
          (at_rest reset_requested)) = sys reset_served.
Proof.
  refine (eq_trans
            (f_equal fsys
               (uninterrupted_round_is_the_round Reset (at_rest reset_requested)
                  _ _ _)) _).
  - apply step_consistent, consistent_run.
  - vm_compute. reflexivity.
  - vm_compute. reflexivity.
  - vm_compute. reflexivity.
Defined.
